(** * MVPMoral, ml-training: the record collector and the two trainer scripts

    A shallow embedding of
    - [collect_training_data.py] (history/feedback flattening, CSV writing),
    - [train_naive_bayes.py] (feature builder, gate, save of the artifact),
    - [train_bert.py] (text preparation, gate).

    Conventions.
    - A Python [str] is a [string]; one [ascii] stands for one character
      (code points 0..255), so [len] and slicing count characters.
    - A pandas cell is missing ([NaN]), a text or a number; a [Series] is the
      list of its cells and a [DataFrame] maps column labels to Series.
    - Code that mutates an object or the outside world is a function of that
      state: [M S A] threads a state [S] and may raise.
    - The file system, the operator's terminal and the failures of file
      operations form the [World] the scripts run in.
    - scikit-learn, scipy, transformers and the CSV parser are not part of
      the repository: they are the fields of the class [Library], each of
      which may raise. *)

From Stdlib Require Import ZArith String Ascii List Lia.
From Stdlib Require Import QArith.QArith_base.
From stdpp Require Import base gmap strings list.

Set Warnings "-register-all".

Local Open Scope Z_scope.
Local Open Scope string_scope.
Local Open Scope list_scope.

(** ** Python strings *)

Module Py.

(** [str.lower()] on one character: A-Z and the upper-case letters of the
    Latin-1 block (except the multiplication sign) move up by 32. *)
Definition lower_char (c : ascii) : ascii :=
  let n := N_of_ascii c in
  if ((65 <=? n) && (n <=? 90))%N
     || ((192 <=? n) && (n <=? 222) && negb (n =? 215))%N
  then ascii_of_N (n + 32) else c.

Fixpoint lower (s : string) : string :=
  match s with
  | EmptyString => EmptyString
  | String c r => String (lower_char c) (lower r)
  end.

(** [s[:n]] *)
Fixpoint slice_to (n : nat) (s : string) : string :=
  match n, s with
  | O, _ => EmptyString
  | S k, EmptyString => EmptyString
  | S k, String c r => String c (slice_to k r)
  end.

(** [pat in s] *)
Fixpoint contains (pat s : string) : bool :=
  String.prefix pat s ||
  match s with
  | EmptyString => false
  | String _ r => contains pat r
  end.

(** [re.search('test|spec|example', s, re.IGNORECASE)]: the pattern is a
    plain alternation of ASCII words, and on a text of code points 0..255
    a match is an occurrence of one of them in the lower-cased text.
    Outside that range, which a [string] cannot hold, the regular
    expression engine also takes U+017F (long s) for an s; nothing is
    stated about such texts. *)
Definition search_test_spec_example (s : string) : bool :=
  let l := lower s in
  contains "test" l || contains "spec" l || contains "example" l.

End Py.

(** ** Exceptions and the state-and-exception monad *)

Inductive exn :=
| KeyError (key : string)
| TypeError
| AttributeError
| ZeroDivisionError
| EOFError
| OSError
| JSONDecodeError
| LibraryError.

Inductive result (A : Type) :=
| Ok (a : A)
| Raise (e : exn).
Arguments Ok {A} a.
Arguments Raise {A} e.

Definition M (S A : Type) : Type := S -> S * result A.

Definition ret {S A} (a : A) : M S A := fun s => (s, Ok a).
Definition raise {S A} (e : exn) : M S A := fun s => (s, Raise e).
Definition bind {S A B} (m : M S A) (k : A -> M S B) : M S B :=
  fun s => match m s with
           | (s', Ok a) => k a s'
           | (s', Raise e) => (s', Raise e)
           end.
Definition modify {S} (f : S -> S) : M S unit := fun s => (f s, Ok tt).
(** a computation that cannot touch the state *)
Definition lift {S A} (r : result A) : M S A := fun s => (s, r).

Declare Scope py_scope.
Delimit Scope py_scope with py.
Notation "x <- m ;; k" := (bind m (fun x => k))
  (at level 100, m at next level, right associativity) : py_scope.
Notation "m ;;; k" := (bind m (fun _ => k))
  (at level 100, right associativity) : py_scope.
Local Open Scope py_scope.

Definition rbind {A B} (r : result A) (k : A -> result B) : result B :=
  match r with Ok a => k a | Raise e => Raise e end.

(** [[f(x) for x in l]] where [f] may raise: stops at the first exception. *)
Fixpoint mapM {A B} (f : A -> result B) (l : list A) : result (list B) :=
  match l with
  | [] => Ok []
  | x :: r => rbind (f x) (fun y => rbind (mapM f r) (fun ys => Ok (y :: ys)))
  end.

(** ** pandas: cells, Series, DataFrame *)

Inductive cell :=
| NaN
| Str (s : string)
| Num (z : Z).

Abbreviation Series := (list cell).

Record DataFrame := mkDF {
  nrows : nat;                       (* len(df) *)
  columns : gmap string (list cell)  (* df[label] *)
}.

Module Pd.

Definition is_str (c : cell) : bool :=
  match c with Str _ => true | _ => false end.

(** [s.fillna(v)] *)
Definition fillna (v : cell) (s : Series) : Series :=
  map (fun c => match c with NaN => v | _ => c end) s.

(** [a + b] on two cells: only text concatenates with text. *)
Definition add_cell (a b : cell) : result cell :=
  match a, b with
  | Str x, Str y => Ok (Str (x +:+ y))
  | _, _ => Raise TypeError
  end.

(** [s + ' '] : a Series plus a scalar text *)
Definition add_lit (s : Series) (lit : string) : result Series :=
  mapM (fun c => add_cell c (Str lit)) s.

(** [s1 + s2] : two Series of one frame (same index) *)
Definition add (s1 s2 : Series) : result Series :=
  mapM (fun p => add_cell (fst p) (snd p)) (combine s1 s2).

(** [s.notna().astype(int)] *)
Definition notna_int (s : Series) : Series :=
  map (fun c => match c with NaN => Num 0 | _ => Num 1 end) s.

(** [d.get(k)] for a dict literal with distinct text keys *)
Fixpoint dict_lookup (d : list (string * Z)) (k : string) : option Z :=
  match d with
  | [] => None
  | (k', v) :: r => if String.eqb k k' then Some v else dict_lookup r k
  end.

(** [s.map(d)] : a value that is no key of [d] becomes NaN *)
Definition map_dict (d : list (string * Z)) (s : Series) : Series :=
  map (fun c => match c with
                | Str k => match dict_lookup d k with
                           | Some v => Num v
                           | None => NaN
                           end
                | _ => NaN
                end) s.

(** The [.str] accessor exists on text columns only. A column read from a
    CSV file has a numeric dtype when it has rows and none of them is a
    text; the accessor then raises AttributeError. *)
Definition str_accessor (s : Series) : result unit :=
  match s with
  | [] => Ok tt
  | _ => if existsb is_str s then Ok tt else Raise AttributeError
  end.

(** [s.str.contains('test|spec|example', case=False, na=False).astype(int)] *)
Definition str_contains_int (s : Series) : result Series :=
  rbind (str_accessor s) (fun _ =>
  Ok (map (fun c => match c with
                    | Str x => if Py.search_test_spec_example x
                               then Num 1 else Num 0
                    | _ => Num 0
                    end) s)).

(** [s.str[:n]] : a cell that is no text becomes NaN *)
Definition str_slice_to (n : nat) (s : Series) : result Series :=
  rbind (str_accessor s) (fun _ =>
  Ok (map (fun c => match c with
                    | Str x => Str (Py.slice_to n x)
                    | _ => NaN
                    end) s)).

(** [s.sum()] of a numeric column skips missing cells. A text column has
    no numeric sum: what [sum] returns for it makes the subtraction that
    follows in [main] raise TypeError, which is raised here. *)
Fixpoint sum (s : Series) : result Z :=
  match s with
  | [] => Ok 0
  | NaN :: r => sum r
  | Num z :: r => rbind (sum r) (fun t => Ok (z + t))
  | Str _ :: _ => Raise TypeError
  end.

(** [df[label]] *)
Definition getitem (label : string) : M DataFrame Series :=
  fun df => match columns df !! label with
            | Some s => (df, Ok s)
            | None => (df, Raise (KeyError label))
            end.

(** [df[label] = s] : changes the frame object itself *)
Definition setitem (label : string) (s : Series) : M DataFrame unit :=
  modify (fun df => mkDF (nrows df) (<[label := s]> (columns df))).

End Pd.

(** ** train_naive_bayes.py: the feature builder *)

Definition severity_map : list (string * Z) :=
  [("CRITICAL", 4); ("HIGH", 3); ("MEDIUM", 2); ("LOW", 1); ("INFO", 0)].

(** [extract_features(df)]. The state is the DataFrame object the argument
    refers to; [return df] hands back that same object, so on success the
    table returned is the final state. *)
Definition extract_features : M DataFrame unit :=
  name <- Pd.getitem "name" ;;
  n1 <- lift (Pd.add_lit (Pd.fillna (Str EmptyString) name) " ") ;;
  description <- Pd.getitem "description" ;;
  n2 <- lift (Pd.add n1 (Pd.fillna (Str EmptyString) description)) ;;
  n3 <- lift (Pd.add_lit n2 " ") ;;
  message <- Pd.getitem "message" ;;
  text <- lift (Pd.add n3 (Pd.fillna (Str EmptyString) message)) ;;
  Pd.setitem "text" text ;;;
  cve <- Pd.getitem "cve" ;;
  Pd.setitem "has_cve" (Pd.notna_int cve) ;;;
  cwe <- Pd.getitem "cwe" ;;
  Pd.setitem "has_cwe" (Pd.notna_int cwe) ;;;
  severity <- Pd.getitem "severity" ;;
  Pd.setitem "severity_numeric"
    (Pd.fillna (Num 2) (Pd.map_dict severity_map severity)) ;;;
  file <- Pd.getitem "file" ;;
  is_test <- lift (Pd.str_contains_int file) ;;
  Pd.setitem "is_test_file" is_test.

(** ** train_bert.py: text preparation *)

Definition prepare_data : M DataFrame unit :=
  name <- Pd.getitem "name" ;;
  n1 <- lift (Pd.add_lit (Pd.fillna (Str EmptyString) name) " [SEP] ") ;;
  description <- Pd.getitem "description" ;;
  n2 <- lift (Pd.add n1 (Pd.fillna (Str EmptyString) description)) ;;
  n3 <- lift (Pd.add_lit n2 " [SEP] ") ;;
  message <- Pd.getitem "message" ;;
  text <- lift (Pd.add n3 (Pd.fillna (Str EmptyString) message)) ;;
  Pd.setitem "text" text ;;;
  text' <- Pd.getitem "text" ;;
  sliced <- lift (Pd.str_slice_to 500 text') ;;
  Pd.setitem "text" sliced.

(** ** JSON values as [json.load] returns them *)

Inductive json :=
| JNull
| JBool (b : bool)
| JInt (z : Z)
| JFloat (q : Q)
| JStr (s : string)
| JArr (items : list json)
| JObj (members : list (string * json)).

Module Js.

(** [d.get(k, default)] on the dict built from the members in file order:
    a later duplicate of a key replaces an earlier one. *)
Fixpoint lookup (members : list (string * json)) (k : string) : option json :=
  match members with
  | [] => None
  | (k', v) :: r =>
      match lookup r k with
      | Some v' => Some v'
      | None => if String.eqb k k' then Some v else None
      end
  end.

(** [j.get(k, default)] : only a dict has [get]. *)
Definition get (j : json) (k : string) (default : json) : result json :=
  match j with
  | JObj members =>
      Ok (match lookup members k with Some v => v | None => default end)
  | _ => Raise AttributeError
  end.

(** the keys of the dict, each once, in order of first insertion *)
Fixpoint keys (members : list (string * json)) (seen : list string)
  : list string :=
  match members with
  | [] => []
  | (k, _) :: r =>
      if existsb (String.eqb k) seen then keys r seen
      else k :: keys r (k :: seen)
  end.

Fixpoint chars (s : string) : list json :=
  match s with
  | EmptyString => []
  | String c r => JStr (String c EmptyString) :: chars r
  end.

(** [for x in j] *)
Definition iterate (j : json) : result (list json) :=
  match j with
  | JArr items => Ok items
  | JObj members => Ok (map JStr (keys members []))
  | JStr s => Ok (chars s)
  | _ => Raise TypeError
  end.

(** truth value of [j] in [if j] and in [1 if j else 0] *)
Definition truthy (j : json) : bool :=
  match j with
  | JNull => false
  | JBool b => b
  | JInt z => negb (z =? 0)%Z
  | JFloat q => negb (Qnum q =? 0)%Z
  | JStr s => negb (String.eqb s EmptyString)
  | JArr items => match items with [] => false | _ => true end
  | JObj members => match members with [] => false | _ => true end
  end.

End Js.

(** ** collect_training_data.py: one flattened record *)

Record row := mkRow {
  r_name : json;
  r_description : json;
  r_severity : json;
  r_cve : json;
  r_cwe : json;
  r_file : json;
  r_line : json;
  r_message : json;
  r_is_real_threat : Z
}.

(** the body of the inner loop: one vulnerability entry to one record *)
Definition flatten_vuln (vuln : json) : result row :=
  rbind (Js.get vuln "original" (JObj [])) (fun original =>
  rbind (Js.get vuln "mlPrediction" (JObj [])) (fun ml_pred =>
  rbind (Js.get ml_pred "isRealThreat" (JBool true)) (fun is_real_threat =>
  rbind (Js.get original "name" (JStr EmptyString)) (fun name =>
  rbind (Js.get original "description" (JStr EmptyString)) (fun description =>
  rbind (Js.get original "severity" (JStr "MEDIUM")) (fun severity =>
  rbind (Js.get original "cve" (JStr EmptyString)) (fun cve =>
  rbind (Js.get original "cwe" (JStr EmptyString)) (fun cwe =>
  rbind (Js.get original "file" (JStr EmptyString)) (fun file =>
  rbind (Js.get original "line" (JStr EmptyString)) (fun line =>
  rbind (Js.get original "message" (JStr EmptyString)) (fun message =>
  Ok (mkRow name description severity cve cwe file line message
        (if Js.truthy is_real_threat then 1 else 0))))))))))))).

(** the inner loop over one analysis entry *)
Definition flatten_analysis (analysis : json) : result (list row) :=
  rbind (Js.get analysis "result" (JObj [])) (fun res =>
  rbind (Js.get res "vulnerabilities" (JArr [])) (fun vulns =>
  rbind (Js.iterate vulns) (fun vs =>
  mapM flatten_vuln vs))).

(** the outer loop: [training_data] after the last iteration *)
Definition flatten_history (history : json) : result (list row) :=
  rbind (Js.iterate history) (fun analyses =>
  rbind (mapM flatten_analysis analyses) (fun rows =>
  Ok (concat rows))).

(** ** The outside world of the three scripts *)

(** What scikit-learn, scipy and transformers compute with: fitted
    estimators, feature matrices, scores, reports, datasets. *)
Record LibTypes := mkLibTypes {
  Classifier : Type;
  Vectorizer : Type;
  Matrix : Type;
  Score : Type;
  Report : Type;
  HFDataset : Type;
  Tokenizer : Type;
  BertModel : Type;
  HFTrainer : Type
}.

Section Outside.

Context {T : LibTypes}.

(** the objects [pickle.dump] serialises *)
Inductive pyobj :=
| ModelObj (m : Classifier T)
| VectorizerObj (v : Vectorizer T).

(** a path of the file system holds a directory or a file *)
Inductive file :=
| Dir
| JsonFile (j : json)                                 (* text of the JSON document j *)
| CsvFile (fieldnames : list string) (rows : list row) (* as csv.DictWriter wrote it *)
| PickleFile (o : pyobj)                              (* a complete pickle of o *)
| Truncated                                           (* opened for writing, never completed *)
| OtherFile (content : string).

(** every [print] of the three scripts *)
Inductive msg :=
(* collect_training_data.py *)
| FeedbackInstructions
| FileNotFound (path : string)
| CsvCreated (path : string) (n : nat)
| NoDataFound
(* both trainers *)
| TrainingCsvMissing
| RunCollectorFirst (or_create_by_hand : bool)
| RecordsLoaded (n : nat)
| LowData (n : nat) (recommended : string)
| ContinueAnyway
| PreparingData
| Evaluating
| Finished
| NextSteps
(* train_naive_bayes.py *)
| BannerNaiveBayes
| DistributionHeader
| RealThreats (count : Z) (n : nat)          (* count and count/n*100 *)
| FalsePositives (count : Z) (n : nat)
| Unbalanced
| Vectorizing
| SplitSizes (n_train n_test : nat)
| TrainingNaiveBayes
| Accuracy (a : Score T)
| ClassificationReport (r : Report T)
| ModelSaved (path : string)
| VectorizerSaved (path : string)
(* train_bert.py *)
| BannerBert
| LoadingBert
| Tokenizing
| StartingTraining
| ValidationAccuracy (a : Score T)
| BertSaved (path : string)
| Probing
| ProbeResult (text : string) (is_threat : bool) (confidence : Score T).

(** the operations on the file system that may fail for a reason outside
    the program (permissions, a full disk, an object that does not pickle) *)
Inductive syscall :=
| Mkdir (path : string)
| OpenW (path : string)
| WriteTo (path : string).

Record World := mkWorld {
  fs : gmap string file;
  stdin : list string;       (* the lines the operator will type *)
  stdout : list msg;         (* what was printed, oldest first *)
  fails : syscall -> bool    (* the operations that fail in this environment *)
}.

Definition set_fs (f : gmap string file -> gmap string file) (w : World) : World :=
  mkWorld (f (fs w)) (stdin w) (stdout w) (fails w).

Definition print (m : msg) : M World unit :=
  modify (fun w => mkWorld (fs w) (stdin w) (stdout w ++ [m]) (fails w)).

(** [input()] : the next line typed, without its newline *)
Definition input : M World string :=
  fun w => match stdin w with
           | [] => (w, Raise EOFError)
           | l :: r => (mkWorld (fs w) r (stdout w) (fails w), Ok l)
           end.

(** [Path(p).exists()] *)
Definition path_exists (p : string) : M World bool :=
  fun w => (w, Ok (match fs w !! p with Some _ => true | None => false end)).

(** [os.mkdir(p)] unless [p] is a directory already *)
Definition mkdir_exist_ok (p : string) : M World unit :=
  fun w => match fs w !! p with
           | Some Dir => (w, Ok tt)
           | Some _ => (w, Raise OSError)
           | None => if fails w (Mkdir p) then (w, Raise OSError)
                     else (set_fs (insert p Dir) w, Ok tt)
           end.

(** [os.makedirs(p, exist_ok=True)], [p] given by its chain of directories
    from the outermost one to [p] itself *)
Fixpoint makedirs (chain : list string) : M World unit :=
  match chain with
  | [] => ret tt
  | p :: rest => mkdir_exist_ok p ;;; makedirs rest
  end.

(** [with open(p, 'w') as f: <write content to f>] : opening truncates the
    file; a failure while writing leaves it incomplete. *)
Definition write_file (p : string) (content : file) : M World unit :=
  fun w => match fs w !! p with
           | Some Dir => (w, Raise OSError)
           | _ => if fails w (OpenW p) then (w, Raise OSError)
                  else if fails w (WriteTo p)
                       then (set_fs (insert p Truncated) w, Raise OSError)
                       else (set_fs (insert p content) w, Ok tt)
           end.

(** [with open(p, 'r') as f: json.load(f)] *)
Definition json_load (p : string) : M World json :=
  fun w => match fs w !! p with
           | Some (JsonFile j) => (w, Ok j)
           | Some Dir | None => (w, Raise OSError)
           | Some _ => (w, Raise JSONDecodeError)
           end.

(** runs code that works on the object [df] refers to; an exception leaves
    the caller's frame and the object is dropped *)
Definition on_frame (df : DataFrame) (m : M DataFrame unit)
  : M World DataFrame :=
  fun w => match m df with
           | (df', Ok _) => (w, Ok df')
           | (_, Raise e) => (w, Raise e)
           end.

(** [df[label]] read by a script *)
Definition column (df : DataFrame) (label : string) : M World Series :=
  lift (snd (Pd.getitem label df)).

(** ** collect_training_data.py *)

Definition feedback_file : string := "data/feedback.json".
Definition history_file : string := "data/history.json".
Definition csv_file : string := "data/training_data.csv".

Definition fieldnames : list string :=
  ["name"; "description"; "severity"; "cve"; "cwe";
   "file"; "line"; "message"; "is_real_threat"].

Definition collect_from_feedback : M World json :=
  print FeedbackInstructions ;;;
  e <- path_exists feedback_file ;;
  if negb e then
    print (FileNotFound feedback_file) ;;;
    ret (JArr [])
  else
    feedbacks <- json_load feedback_file ;;
    ret feedbacks.

Definition collect_from_history : M World (list row) :=
  e <- path_exists history_file ;;
  if negb e then
    print (FileNotFound history_file) ;;;
    ret []
  else
    history <- json_load history_file ;;
    training_data <- lift (flatten_history history) ;;
    ret training_data.

Definition create_training_csv : M World unit :=
  makedirs ["data"] ;;;
  history_data <- collect_from_history ;;
  feedback_data <- collect_from_feedback ;;
  let all_data := history_data in
  (if Js.truthy feedback_data then ret tt (* pass *) else ret tt) ;;;
  match all_data with
  | _ :: _ =>
      write_file csv_file (CsvFile fieldnames all_data) ;;;
      print (CsvCreated csv_file (length all_data))
  | [] => print NoDataFound
  end.

End Outside.

Arguments pyobj T : clear implicits.
Arguments file T : clear implicits.
Arguments msg T : clear implicits.
Arguments World T : clear implicits.

(** ** The libraries the trainers call *)

(** pandas' CSV parser, scikit-learn and scipy as [train_model] calls them,
    transformers, datasets and torch as [train_bert] calls them. Each call
    may raise. The callbacks [tokenize_function] (max_length 128, truncation,
    padding) and [compute_metrics] run inside the transformers calls. *)
Class Library (T : LibTypes) := {
  (* pd.read_csv(path), applied to what the path holds *)
  read_csv : file T -> result DataFrame;
  (* train_naive_bayes.py *)
  tfidf_fit_transform :
    forall (max_features : Z) (stop_words : string) (ngram_range : Z * Z)
           (min_df : Z), Series -> result (Vectorizer T * Matrix T);
  hstack : Matrix T -> list Series -> result (Matrix T);
  train_test_split :
    forall (test_size : Q) (random_state : Z) (stratify : Series),
      Matrix T -> Series -> result (Matrix T * Matrix T * Series * Series);
  matrix_len : Matrix T -> result nat;
  multinomial_nb_fit :
    forall (alpha : Q), Matrix T -> Series -> result (Classifier T);
  predict : Classifier T -> Matrix T -> result Series;
  accuracy_score : Series -> Series -> result (Score T);
  classification_report :
    Series -> Series -> forall (target_names : list string), result (Report T);
  (* train_bert.py *)
  split_frame :
    forall (test_size : Q) (random_state : Z) (stratify : Series),
      DataFrame -> result (DataFrame * DataFrame);
  dataset_from_pandas : DataFrame -> list string -> result (HFDataset T);
  from_pretrained :
    forall (model_name : string) (num_labels : Z),
      M (World T) (Tokenizer T * BertModel T);
  tokenize_dataset :
    Tokenizer T -> forall (max_length : Z), HFDataset T -> result (HFDataset T);
  rename_column : HFDataset T -> string -> string -> result (HFDataset T);
  make_trainer :
    BertModel T -> forall (output_dir : string) (num_train_epochs : Z)
      (early_stopping_patience : Z),
      HFDataset T -> HFDataset T -> result (HFTrainer T);
  trainer_train : HFTrainer T -> M (World T) unit;
  trainer_evaluate : HFTrainer T -> M (World T) (Score T);
  trainer_save_model : HFTrainer T -> string -> M (World T) unit;
  tokenizer_save_pretrained : Tokenizer T -> string -> M (World T) unit;
  classify : Tokenizer T -> BertModel T -> string -> result (bool * Score T)
}.

Section Trainers.

Context {T : LibTypes} {L : Library T}.

(** ** train_naive_bayes.py *)

Definition model_file : string := "models/naive_bayes.pkl".
Definition vectorizer_file : string := "models/vectorizer.pkl".

Definition load_data (or_create_by_hand : bool) : M (World T) (option DataFrame) :=
  e <- path_exists csv_file ;;
  if negb e then
    print TrainingCsvMissing ;;;
    print (RunCollectorFirst or_create_by_hand) ;;;
    ret None
  else
    df <- (fun w => (w, match fs w !! csv_file with
                        | Some f => read_csv f
                        | None => Raise OSError
                        end)) ;;
    print (RecordsLoaded (nrows df)) ;;;
    ret (Some df).

(** lines 106-119 of [train_model]: the fitted pair goes to two files *)
Definition train_model_save (model : Classifier T) (vectorizer : Vectorizer T)
  : M (World T) unit :=
  makedirs ["models"] ;;;
  write_file model_file (PickleFile (ModelObj model)) ;;;
  write_file vectorizer_file (PickleFile (VectorizerObj vectorizer)) ;;;
  print (ModelSaved model_file) ;;;
  print (VectorizerSaved vectorizer_file).

Definition train_model (df : DataFrame)
  : M (World T) (Classifier T * Vectorizer T * Score T) :=
  print PreparingData ;;;
  df <- on_frame df extract_features ;;
  X_text <- column df "text" ;;
  y <- column df "is_real_threat" ;;
  print Vectorizing ;;;
  fitted <- lift (tfidf_fit_transform 1000 "english" (1, 2) 2 X_text) ;;
  let '(vectorizer, X_text_vectorized) := fitted in
  has_cve <- column df "has_cve" ;;
  has_cwe <- column df "has_cwe" ;;
  severity_numeric <- column df "severity_numeric" ;;
  is_test_file <- column df "is_test_file" ;;
  let X_additional := [has_cve; has_cwe; severity_numeric; is_test_file] in
  X <- lift (hstack X_text_vectorized X_additional) ;;
  parts <- lift (train_test_split (2 # 10) 42 y X y) ;;
  let '(X_train, X_test, y_train, y_test) := parts in
  n_train <- lift (matrix_len X_train) ;;
  n_test <- lift (matrix_len X_test) ;;
  print (SplitSizes n_train n_test) ;;;
  print TrainingNaiveBayes ;;;
  model <- lift (multinomial_nb_fit (1 # 1) X_train y_train) ;;
  print Evaluating ;;;
  y_pred <- lift (predict model X_test) ;;
  accuracy <- lift (accuracy_score y_test y_pred) ;;
  print (Accuracy accuracy) ;;;
  report <- lift (classification_report y_test y_pred
                    ["Falso Positivo"; "Ameaca Real"]) ;;
  print (ClassificationReport report) ;;;
  train_model_save model vectorizer ;;;
  ret (model, vectorizer, accuracy).

(** [main()] after the gate: class balance report, then training *)
Definition main_train (df : DataFrame) : M (World T) unit :=
  col <- column df "is_real_threat" ;;
  real_threats <- lift (Pd.sum col) ;;
  let false_positives := Z.of_nat (nrows df) - real_threats in
  print DistributionHeader ;;;
  (* real_threats/len(df)*100 in the next line: no rows, no quotient *)
  (if Nat.eqb (nrows df) 0 then raise ZeroDivisionError else ret tt) ;;;
  print (RealThreats real_threats (nrows df)) ;;;
  print (FalsePositives false_positives (nrows df)) ;;;
  (if (real_threats <? 10)%Z || (false_positives <? 10)%Z
   then print Unbalanced else ret tt) ;;;
  _ <- train_model df ;;
  print Finished ;;;
  print NextSteps.

(** the low-data gate of both trainers: [true] when training may go on *)
Definition low_data_gate (df : DataFrame) (threshold : nat)
  (recommended : string) : M (World T) bool :=
  if Nat.ltb (nrows df) threshold then
    print (LowData (nrows df) recommended) ;;;
    print ContinueAnyway ;;;
    answer <- input ;;
    ret (String.eqb (Py.lower answer) "s")
  else ret true.

Definition main : M (World T) unit :=
  print BannerNaiveBayes ;;;
  df <- load_data true ;;
  match df with
  | None => ret tt
  | Some df =>
      go_on <- low_data_gate df 50 "50-100" ;;
      if negb go_on then ret tt
      else main_train df
  end.

(** ** train_bert.py *)

Definition bert_dir : string := "models/bert_model".

Definition probe (tokenizer : Tokenizer T) (model : BertModel T) (text : string)
  : M (World T) unit :=
  r <- lift (classify tokenizer model text) ;;
  print (ProbeResult (Py.slice_to 50 text) (fst r) (snd r)).

(** [train_bert()] after the gate *)
Definition train_bert_fit (df : DataFrame) : M (World T) unit :=
  print PreparingData ;;;
  df <- on_frame df prepare_data ;;
  labels <- column df "is_real_threat" ;;
  parts <- lift (split_frame (2 # 10) 42 labels df) ;;
  let '(train_df, val_df) := parts in
  print (SplitSizes (nrows train_df) (nrows val_df)) ;;;
  train_dataset <- lift (dataset_from_pandas train_df ["text"; "is_real_threat"]) ;;
  val_dataset <- lift (dataset_from_pandas val_df ["text"; "is_real_threat"]) ;;
  print LoadingBert ;;;
  loaded <- from_pretrained "distilbert-base-uncased" 2 ;;
  let '(tokenizer, model) := loaded in
  print Tokenizing ;;;
  train_dataset <- lift (tokenize_dataset tokenizer 128 train_dataset) ;;
  val_dataset <- lift (tokenize_dataset tokenizer 128 val_dataset) ;;
  train_dataset <- lift (rename_column train_dataset "is_real_threat" "labels") ;;
  val_dataset <- lift (rename_column val_dataset "is_real_threat" "labels") ;;
  trainer <- lift (make_trainer model "./models/bert_model" 3 2
                     train_dataset val_dataset) ;;
  print StartingTraining ;;;
  trainer_train trainer ;;;
  print Evaluating ;;;
  eval_accuracy <- trainer_evaluate trainer ;;
  print (ValidationAccuracy eval_accuracy) ;;;
  makedirs ["models"; bert_dir] ;;;
  trainer_save_model trainer "./models/bert_model" ;;;
  tokenizer_save_pretrained tokenizer "./models/bert_model" ;;;
  print (BertSaved "./models/bert_model") ;;;
  print Probing ;;;
  probe tokenizer model "SQL Injection vulnerability in user input" ;;;
  probe tokenizer model "Deprecated function in test file" ;;;
  print Finished ;;;
  print NextSteps.

Definition train_bert : M (World T) unit :=
  print BannerBert ;;;
  df <- load_data false ;;
  match df with
  | None => ret tt
  | Some df =>
      go_on <- low_data_gate df 100 "100-200" ;;
      if negb go_on then ret tt
      else train_bert_fit df
  end.

End Trainers.

(** ** Notions used by the statements *)

(** the text of a cell once [fillna('')] has been applied *)
Definition txt (c : cell) : string :=
  match c with Str s => s | _ => EmptyString end.

(** the cell of a text column: a text or a missing value *)
Definition is_text (c : cell) : bool :=
  match c with Num _ => false | _ => true end.

(** the value of the expression
    [name.fillna('') + sep + description.fillna('') + sep + message.fillna('')]
    once the three columns are read *)
Definition joined_text (sep : string) (name description message : Series)
  : result Series :=
  rbind (Pd.add_lit (Pd.fillna (Str EmptyString) name) sep) (fun n1 =>
  rbind (Pd.add n1 (Pd.fillna (Str EmptyString) description)) (fun n2 =>
  rbind (Pd.add_lit n2 sep) (fun n3 =>
  Pd.add n3 (Pd.fillna (Str EmptyString) message)))).

(** the columns [extract_features] writes, and those it reads *)
Definition derived_columns : list string :=
  ["text"; "has_cve"; "has_cwe"; "severity_numeric"; "is_test_file"].
Definition source_columns : list string :=
  ["name"; "description"; "message"; "cve"; "cwe"; "severity"; "file"].

(** the frame after a successful [extract_features] *)
Definition with_features (df : DataFrame)
  (text cve cwe severity is_test : Series) : DataFrame :=
  mkDF (nrows df)
    (<["is_test_file" := is_test]>
     (<["severity_numeric" :=
          Pd.fillna (Num 2) (Pd.map_dict severity_map severity)]>
      (<["has_cwe" := Pd.notna_int cwe]>
       (<["has_cve" := Pd.notna_int cve]>
        (<["text" := text]> (columns df)))))).


(** [n] copies of a character *)
Fixpoint repeat_char (n : nat) (c : ascii) : string :=
  match n with
  | O => EmptyString
  | S k => String c (repeat_char k c)
  end.

(** a one-record table with the columns of training_data.csv *)
Definition one_row (name description message cve cwe severity file : cell)
  (label : Z) : DataFrame :=
  mkDF 1 (list_to_map
    [("name", [name]); ("description", [description]);
     ("severity", [severity]); ("cve", [cve]); ("cwe", [cwe]);
     ("file", [file]); ("line", [Num 1]); ("message", [message]);
     ("is_real_threat", [Num label])]).

Definition sample_frame : DataFrame :=
  one_row (Str "SQL Injection") (Str "user input reaches a query") NaN
    (Str "CVE-2021-0001") NaN (Str "HIGH") (Str "src/db.py") 1.

(** the same finding with an empty text in [cve] and an unknown severity *)
Definition empty_cve_frame : DataFrame :=
  one_row (Str "SQL Injection") (Str "user input reaches a query") NaN
    (Str EmptyString) (Str EmptyString) (Str "high") (Str "src/db.py") 1.

(** a finding whose name alone has 501 characters *)
Definition long_name_frame : DataFrame :=
  one_row (Str (repeat_char 501 "a")) (Str EmptyString) (Str EmptyString)
    NaN NaN (Str "LOW") (Str "src/db.py") 0.

(** ** The claims, as the specification words them *)

(** "the combined text field is truncated to at most 500 characters" *)
Definition text_at_most_500 (builder : M DataFrame unit) (df : DataFrame)
  : Prop :=
  forall df' text i s,
    builder df = (df', Ok tt) ->
    columns df' !! "text" = Some text ->
    text !! i = Some (Str s) ->
    (String.length s <= 500)%nat.



(** "it does not mutate its input" *)
Definition leaves_input_unchanged (df : DataFrame) : Prop :=
  forall df' r, extract_features df = (df', r) -> df' = df.

(** ** Worlds and library doubles used by the statements *)

Section WorldNotions.

Context {T : LibTypes}.

(** [w] after the messages [ms] were printed *)
Definition printed (ms : list (msg T)) (w : World T) : World T :=
  mkWorld (fs w) (stdin w) (stdout w ++ ms) (fails w).

(** [w] after the messages [ms] were printed and one line was read,
    [rest] being the lines still to come *)
Definition answered (ms : list (msg T)) (rest : list string) (w : World T)
  : World T :=
  mkWorld (fs w) rest (stdout w ++ ms) (fails w).

(** [w] with data/feedback.json holding the document [fb], or absent *)
Definition with_feedback (fb : option json) (w : World T) : World T :=
  set_fs (fun m => match fb with
                   | Some j => <[feedback_file := JsonFile j]> m
                   | None => delete feedback_file m
                   end) w.




(** two worlds that differ at most in data/feedback.json and in what was
    printed *)
Definition same_but_feedback (w1 w2 : World T) : Prop :=
  stdin w1 = stdin w2 /\ fails w1 = fails w2
  /\ forall p, p <> feedback_file -> fs w1 !! p = fs w2 !! p.

(** data/feedback.json is absent or holds a JSON document *)
Definition feedback_ok (w : World T) : Prop :=
  fs w !! feedback_file = None
  \/ exists j, fs w !! feedback_file = Some (JsonFile j).

Definition related (w1 w2 : World T) : Prop :=
  same_but_feedback w1 w2 /\ feedback_ok w1 /\ feedback_ok w2.

(** two runs that end in related worlds with the same result *)
Definition alike {A} (x y : World T * result A) : Prop :=
  related (fst x) (fst y) /\ snd x = snd y.

End WorldNotions.

(** fitted estimators are numbered; nothing else is looked into *)
Definition numbered : LibTypes :=
  mkLibTypes nat nat unit unit unit unit unit unit unit.

(** a library whose CSV parser returns [df] and whose other calls raise *)
Definition parser_only (df : DataFrame) : Library numbered := {|
  read_csv := fun _ => Ok df;
  tfidf_fit_transform := fun _ _ _ _ _ => Raise LibraryError;
  hstack := fun _ _ => Raise LibraryError;
  train_test_split := fun _ _ _ _ _ => Raise LibraryError;
  matrix_len := fun _ => Raise LibraryError;
  multinomial_nb_fit := fun _ _ _ => Raise LibraryError;
  predict := fun _ _ => Raise LibraryError;
  accuracy_score := fun _ _ => Raise LibraryError;
  classification_report := fun _ _ _ => Raise LibraryError;
  split_frame := fun _ _ _ _ => Raise LibraryError;
  dataset_from_pandas := fun _ _ => Raise LibraryError;
  from_pretrained := fun _ _ => raise LibraryError;
  tokenize_dataset := fun _ _ _ => Raise LibraryError;
  rename_column := fun _ _ _ => Raise LibraryError;
  make_trainer := fun _ _ _ _ _ _ => Raise LibraryError;
  trainer_train := fun _ => raise LibraryError;
  trainer_evaluate := fun _ => raise LibraryError;
  trainer_save_model := fun _ _ => raise LibraryError;
  tokenizer_save_pretrained := fun _ _ => raise LibraryError;
  classify := fun _ _ _ => Raise LibraryError
|}.

(** an environment in which no file operation fails *)
Definition reliable : syscall -> bool := fun _ => false.

(** an environment in which models/vectorizer.pkl cannot be opened *)
Definition vectorizer_unwritable : syscall -> bool :=
  fun c => match c with
           | OpenW p => String.eqb p vectorizer_file
           | _ => false
           end.

(** the pair 1 of an earlier run is on disk *)
Definition world_with_old_pair : World numbered :=
  mkWorld (list_to_map
             [("models", Dir);
              (model_file, PickleFile (ModelObj (T := numbered) 1%nat));
              (vectorizer_file, PickleFile (VectorizerObj (T := numbered) 1%nat))])
          [] [] vectorizer_unwritable.

(** no training_data.csv, an old pair on disk *)
Definition world_without_csv : World numbered :=
  mkWorld (list_to_map
             [("models", Dir);
              (model_file, PickleFile (ModelObj (T := numbered) 1%nat));
              (vectorizer_file, PickleFile (VectorizerObj (T := numbered) 1%nat))])
          [] [] reliable.

(** a one-record training_data.csv and an operator who answers [answer] *)
Definition world_with_small_csv (answer : list string) : World numbered :=
  mkWorld (list_to_map [("data", Dir); (csv_file, OtherFile "one record")])
          answer [] reliable.

(** one analysis with one finding: predicted a real threat, judged a false
    positive by a human *)
Definition history_doc : json :=
  JArr [JObj [("result", JObj [("vulnerabilities", JArr [
    JObj [("original", JObj [("name", JStr "SQL Injection");
                             ("severity", JStr "HIGH");
                             ("file", JStr "src/db.py")]);
          ("mlPrediction", JObj [("isRealThreat", JBool true)]);
          ("feedback", JObj [("isRealThreat", JBool false)])]])])]].

Definition feedback_doc : json :=
  JArr [JObj [("name", JStr "SQL Injection"); ("file", JStr "src/db.py");
              ("isRealThreat", JBool false)]].

Definition world_with_history : World numbered :=
  mkWorld (list_to_map [("data", Dir); (history_file, JsonFile history_doc)])
          [] [] reliable.

(** the same, with a data/feedback.json that is not JSON (an empty file) *)
Definition world_with_blank_feedback : World numbered :=
  mkWorld (list_to_map [("data", Dir); (history_file, JsonFile history_doc);
                        (feedback_file, OtherFile EmptyString)])
          [] [] reliable.

(** the record the collector makes of [history_doc] *)
Definition history_row : row :=
  mkRow (JStr "SQL Injection") (JStr EmptyString) (JStr "HIGH") (JStr EmptyString) (JStr EmptyString)
        (JStr "src/db.py") (JStr EmptyString) (JStr EmptyString) 1.

(** ** Further notions: frames *)

(** every column of the frame has one cell per record *)
Definition uniform (df : DataFrame) : Prop :=
  forall l s, columns df !! l = Some s -> length s = nrows df.

(** [df'] is [df] except, at most, for the columns [labels] *)
Definition changes_only (labels : list string) (df df' : DataFrame) : Prop :=
  nrows df' = nrows df
  /\ forall l, l ∉ labels -> columns df' !! l = columns df !! l.

(** a computation on a frame that changes only the columns [labels],
    whether it returns or raises *)
Definition confined {A} (labels : list string) (m : M DataFrame A) : Prop :=
  forall df df' r, m df = (df', r) -> changes_only labels df df'.

(** the words of the pattern of [is_test_file] *)
Definition test_words : list string := ["test"; "spec"; "example"].

(** the text columns the two builders join *)
Definition text_columns : list string := ["name"; "description"; "message"].

(** [sample_frame] without its file column *)
Definition frame_without_file : DataFrame :=
  mkDF 1 (delete "file" (columns sample_frame)).

(** the finding of [sample_frame], found in a test file *)
Definition test_file_frame : DataFrame :=
  one_row (Str "SQL Injection") (Str "user input reaches a query") NaN
    (Str "CVE-2021-0001") NaN (Str "HIGH") (Str "src/db_Test.py") 1.

(** a table of [n] records, [ones] of them labelled 1 and the others 0 *)
Definition labelled_frame (n ones : nat) : DataFrame :=
  mkDF n (list_to_map
    [("name", replicate n (Str "finding"));
     ("description", replicate n NaN);
     ("severity", replicate n (Str "LOW")); ("cve", replicate n NaN);
     ("cwe", replicate n NaN); ("file", replicate n (Str "src/a.py"));
     ("line", replicate n (Num 1)); ("message", replicate n NaN);
     ("is_real_threat",
      replicate ones (Num 1) ++ replicate (n - ones) (Num 0))]).

(** [sample_frame] with a file column read from empty CSV fields *)
Definition frame_with_blank_file : DataFrame :=
  mkDF 1 (<["file" := [NaN]]> (columns sample_frame)).

(** the conditions under which [extract_features] returns: the seven source
    columns are there, the three text columns hold no number, and the file
    column is empty or has a text *)
Definition features_ready (df : DataFrame) : Prop :=
  (forall l, l ∈ source_columns -> is_Some (columns df !! l))
  /\ (forall l s, l ∈ text_columns -> columns df !! l = Some s ->
       Forall (fun c => is_text c = true) s)
  /\ (forall file, columns df !! "file" = Some file ->
       file = [] \/ Exists (fun c => Pd.is_str c = true) file).

(** ** Further notions: runs of a script *)

Section RunNotions.

Context {T : LibTypes}.

(** a run that, whether it returns or raises, leaves every path outside
    [paths] as it was and does not change which operations fail *)
Definition fs_confined {A} (paths : list string) (m : M (World T) A) : Prop :=
  forall w w' r, m w = (w', r) ->
    fails w' = fails w
    /\ forall p, p ∉ paths -> fs w' !! p = fs w !! p.

(** a run that only adds to what was printed *)
Definition stdout_grows {A} (m : M (World T) A) : Prop :=
  forall w w' r, m w = (w', r) -> exists out, stdout w' = stdout w ++ out.

(** the directory data/ exists or can be made *)
Definition data_dir_ok (w : World T) : Prop :=
  fs w !! "data" = Some Dir
  \/ (fs w !! "data" = None /\ fails w (Mkdir "data") = false).

(** the vulnerability entries of one analysis entry *)
Definition entries_of (analysis : json) (items : list json) : Prop :=
  exists res vulns,
    Js.get analysis "result" (JObj []) = Ok res
    /\ Js.get res "vulnerabilities" (JArr []) = Ok vulns
    /\ Js.iterate vulns = Ok items.

End RunNotions.

(** a history of two analyses: one without result, one with one finding *)
Definition history_with_gap : json :=
  JArr [JObj [("id", JInt 1)];
        JObj [("result", JObj [("vulnerabilities", JArr [
          JObj [("original", JObj [("name", JStr "XSS")]);
                ("mlPrediction", JObj [("isRealThreat", JBool false)])]])])]].

(** a history whose second entry is not an object *)
Definition history_with_string : json :=
  JArr [JObj [("id", JInt 1)]; JStr "oops"].

(** no history, an earlier CSV still on disk *)
Definition world_with_old_csv : World numbered :=
  mkWorld (list_to_map [("data", Dir);
                        (csv_file, CsvFile fieldnames [history_row])])
          [] [] reliable.

(** ** Further notions: the trainers *)

(** the paths the classical trainer writes *)
Definition model_paths : list string :=
  ["models"; model_file; vectorizer_file].

(** the records labelled 1, and those labelled 0 *)
Definition ones (labels : Series) : nat :=
  length (List.filter (fun c => match c with Num 1 => true | _ => false end) labels).
Definition zeros (labels : Series) : nat :=
  length (List.filter (fun c => match c with Num 0 => true | _ => false end) labels).

(** a label column of zeros and ones *)
Definition binary (labels : Series) : Prop :=
  Forall (fun c => c = Num 0 \/ c = Num 1) labels.

(** what [main_train] prints before it trains *)
Definition balance_report {T : LibTypes} (labels : Series) (n : nat)
  : list (msg T) :=
  [DistributionHeader;
   RealThreats (Z.of_nat (ones labels)) n;
   FalsePositives (Z.of_nat (zeros labels)) n]
  ++ (if (Z.of_nat (ones labels) <? 10)%Z || (Z.of_nat (zeros labels) <? 10)%Z
      then [Unbalanced] else []).


(** a library whose parser returns [df], whose scikit-learn calls all
    succeed, fitting vectorizer 7 and classifier 3, and whose sparse
    matrices have no [len] *)
Definition fitting (df : DataFrame) : Library numbered := {|
  read_csv := fun _ => Ok df;
  tfidf_fit_transform := fun _ _ _ _ _ =>
    @Ok (Vectorizer numbered * Matrix numbered) (7%nat, tt);
  hstack := fun _ _ => @Ok (Matrix numbered) tt;
  train_test_split := fun _ _ _ _ y =>
    @Ok (Matrix numbered * Matrix numbered * Series * Series) (tt, tt, y, y);
  matrix_len := fun _ => Raise TypeError;
  multinomial_nb_fit := fun _ _ _ => @Ok (Classifier numbered) 3%nat;
  predict := fun _ _ => Ok [];
  accuracy_score := fun _ _ => @Ok (Score numbered) tt;
  classification_report := fun _ _ _ => @Ok (Report numbered) tt;
  split_frame := fun _ _ _ _ => Raise LibraryError;
  dataset_from_pandas := fun _ _ => Raise LibraryError;
  from_pretrained := fun _ _ => raise LibraryError;
  tokenize_dataset := fun _ _ _ => Raise LibraryError;
  rename_column := fun _ _ _ => Raise LibraryError;
  make_trainer := fun _ _ _ _ _ _ => Raise LibraryError;
  trainer_train := fun _ => raise LibraryError;
  trainer_evaluate := fun _ => raise LibraryError;
  trainer_save_model := fun _ _ => raise LibraryError;
  tokenizer_save_pretrained := fun _ _ => raise LibraryError;
  classify := fun _ _ _ => Raise LibraryError
|}.

(** a training_data.csv on disk, the pair of an earlier run beside it, and
    an operator who types [answer] *)
Definition world_ready (answer : list string) : World numbered :=
  mkWorld (list_to_map
             [("data", Dir); (csv_file, OtherFile "records");
              ("models", Dir);
              (model_file, PickleFile (ModelObj (T := numbered) 1%nat));
              (vectorizer_file, PickleFile (VectorizerObj (T := numbered) 1%nat))])
          answer [] reliable.

(** ** Further notions: history entries *)

(** a value of a key that is an object, or the key is not there *)
Definition object_or_absent (o : option json) : bool :=
  match o with
  | None | Some (JObj _) => true
  | Some _ => false
  end.

(** a vulnerability entry the collector can read: an object whose original
    and mlPrediction, where present, are objects *)
Definition entry_ok (vuln : json) : bool :=
  match vuln with
  | JObj members =>
      object_or_absent (Js.lookup members "original")
      && object_or_absent (Js.lookup members "mlPrediction")
  | _ => false
  end.

(** an entry whose original is null *)
Definition entry_with_null_original : json :=
  JObj [("original", JNull); ("mlPrediction", JObj [("isRealThreat", JBool true)])].

(** * Properties *)

(** ** Lists, [mapM] and the monad *)

Lemma lookup_map {A B} (f : A -> B) (l : list A) (i : nat) :
  map f l !! i = f <$> (l !! i).
Proof.
  revert i. induction l as [|x l IH]; intros [|i]; simpl; auto.
Qed.

Lemma lookup_combine {A B} (l1 : list A) (l2 : list B) (i : nat) a b :
  l1 !! i = Some a -> l2 !! i = Some b -> combine l1 l2 !! i = Some (a, b).
Proof.
  revert l2 i. induction l1 as [|x l1 IH]; intros [|y l2] [|i] Ha Hb;
    simpl in *; try discriminate.
  - congruence.
  - apply IH; assumption.
Qed.

Lemma mapM_Ok_lookup {A B} (f : A -> result B) l l' i x :
  mapM f l = Ok l' -> l !! i = Some x ->
  exists y, f x = Ok y /\ l' !! i = Some y.
Proof.
  revert l' i. induction l as [|a l IH]; intros l' i H Hi.
  - destruct i; discriminate.
  - simpl in H. destruct (f a) as [b|e] eqn:Hfa; simpl in H; [|discriminate].
    destruct (mapM f l) as [bs|e] eqn:Hm; simpl in H; [|discriminate].
    injection H as <-. destruct i as [|i]; simpl in *.
    + injection Hi as <-. eauto.
    + eapply IH; eauto.
Qed.

Lemma mapM_Ok_length {A B} (f : A -> result B) l l' :
  mapM f l = Ok l' -> length l' = length l.
Proof.
  revert l'. induction l as [|a l IH]; intros l' H; simpl in H.
  - injection H as <-. reflexivity.
  - destruct (f a) as [b|e]; simpl in H; [|discriminate].
    destruct (mapM f l) as [bs|e]; simpl in H; [|discriminate].
    injection H as <-. simpl. f_equal. apply IH. reflexivity.
Qed.

Lemma mapM_total {A B} (f : A -> result B) l :
  Forall (fun x => exists y, f x = Ok y) l -> exists l', mapM f l = Ok l'.
Proof.
  induction 1 as [|a l [b Hb] _ [bs Hbs]]; simpl.
  - eauto.
  - rewrite Hb. simpl. rewrite Hbs. simpl. eauto.
Qed.

Lemma bind_getitem_inv {B} label (k : Series -> M DataFrame B) df df' b :
  bind (Pd.getitem label) k df = (df', Ok b) ->
  exists s, columns df !! label = Some s /\ k s df = (df', Ok b).
Proof.
  unfold bind, Pd.getitem. destruct (columns df !! label) as [s|]; [eauto|].
  discriminate.
Qed.

Lemma bind_getitem_Some {B} label (k : Series -> M DataFrame B) df s :
  columns df !! label = Some s -> bind (Pd.getitem label) k df = k s df.
Proof. intros H. unfold bind, Pd.getitem. rewrite H. reflexivity. Qed.

Lemma bind_lift_inv {S A B} (r : result A) (k : A -> M S B) s s' b :
  bind (lift r) k s = (s', Ok b) -> exists a, r = Ok a /\ k a s = (s', Ok b).
Proof. unfold bind, lift. destruct r; [eauto|discriminate]. Qed.

Lemma bind_lift_Ok {S A B} (r : result A) (k : A -> M S B) s a :
  r = Ok a -> bind (lift r) k s = k a s.
Proof. intros ->. reflexivity. Qed.

Lemma bind_setitem {B} label v (k : unit -> M DataFrame B) df :
  bind (Pd.setitem label v) k df
  = k tt (mkDF (nrows df) (<[label := v]> (columns df))).
Proof. reflexivity. Qed.

Lemma rbind_Ok_inv {A B} (r : result A) (k : A -> result B) b :
  rbind r k = Ok b -> exists a, r = Ok a /\ k a = Ok b.
Proof. destruct r; simpl; [eauto|discriminate]. Qed.

(** ** The join of the three text columns *)

Lemma add_cell_Ok a b c :
  Pd.add_cell a b = Ok c -> c = Str (txt a +:+ txt b) /\ a = Str (txt a).
Proof.
  destruct a, b; simpl; try discriminate. intros [= <-]. auto.
Qed.

Lemma lookup_fillna v s i c :
  s !! i = Some c ->
  Pd.fillna v s !! i = Some (match c with NaN => v | _ => c end).
Proof. intros H. unfold Pd.fillna. rewrite lookup_map, H. reflexivity. Qed.

Lemma add_lit_lookup s lit out i c :
  Pd.add_lit s lit = Ok out -> s !! i = Some c ->
  out !! i = Some (Str (txt c +:+ lit)).
Proof.
  intros H Hi. destruct (mapM_Ok_lookup _ _ _ _ _ H Hi) as (y & Hy & ->).
  apply add_cell_Ok in Hy as [-> _]. reflexivity.
Qed.

Lemma add_lookup s1 s2 out i a b :
  Pd.add s1 s2 = Ok out -> s1 !! i = Some a -> s2 !! i = Some b ->
  out !! i = Some (Str (txt a +:+ txt b)).
Proof.
  intros H Ha Hb. pose proof (lookup_combine _ _ _ _ _ Ha Hb) as Hc.
  destruct (mapM_Ok_lookup _ _ _ _ _ H Hc) as (y & Hy & ->).
  apply add_cell_Ok in Hy as [-> _]. reflexivity.
Qed.

Lemma txt_fill c : txt (match c with NaN => Str EmptyString | _ => c end) = txt c.
Proof. destruct c; reflexivity. Qed.

(** Row by row, the joined text is the concatenation of the three fields,
    a missing one counting as empty, with the separator between them. *)
Lemma joined_text_lookup sep name description message text i a b c :
  joined_text sep name description message = Ok text ->
  name !! i = Some a -> description !! i = Some b -> message !! i = Some c ->
  text !! i = Some (Str ((((txt a +:+ sep) +:+ txt b) +:+ sep) +:+ txt c)).
Proof.
  unfold joined_text. intros H Ha Hb Hc.
  apply rbind_Ok_inv in H as (n1 & H1 & H).
  apply rbind_Ok_inv in H as (n2 & H2 & H).
  apply rbind_Ok_inv in H as (n3 & H3 & H).
  pose proof (add_lit_lookup _ _ _ _ _ H1 (lookup_fillna (Str EmptyString) _ _ _ Ha)) as E1.
  rewrite txt_fill in E1.
  pose proof (add_lookup _ _ _ _ _ _ H2 E1 (lookup_fillna (Str EmptyString) _ _ _ Hb)) as E2.
  rewrite txt_fill in E2. simpl in E2.
  pose proof (add_lit_lookup _ _ _ _ _ H3 E2) as E3. simpl in E3.
  pose proof (add_lookup _ _ _ _ _ _ H E3 (lookup_fillna (Str EmptyString) _ _ _ Hc)) as E4.
  rewrite txt_fill in E4. exact E4.
Qed.

Lemma length_append (a b : string) :
  String.length (a +:+ b) = (String.length a + String.length b)%nat.
Proof. induction a as [|c a IH]; simpl; [reflexivity|]. rewrite IH. reflexivity. Qed.

Lemma length_slice_to n s :
  String.length (Py.slice_to n s) = Nat.min n (String.length s).
Proof.
  revert s. induction n as [|n IH]; intros [|c s]; simpl; try reflexivity.
  rewrite IH. reflexivity.
Qed.

Lemma mapM_Ok_Forall {A B} (f : A -> result B) (P : B -> Prop) l l' :
  (forall x y, f x = Ok y -> P y) -> mapM f l = Ok l' -> Forall P l'.
Proof.
  intros HP. revert l'. induction l as [|a l IH]; intros l' H; simpl in H.
  - injection H as <-. constructor.
  - destruct (f a) as [b|e] eqn:Hfa; simpl in H; [|discriminate].
    destruct (mapM f l) as [bs|e]; simpl in H; [|discriminate].
    injection H as <-. constructor; eauto.
Qed.

Lemma add_cell_is_str a b c : Pd.add_cell a b = Ok c -> Pd.is_str c = true.
Proof. destruct a, b; simpl; try discriminate. intros [= <-]. reflexivity. Qed.

Lemma fillna_is_str s :
  Forall (fun c => is_text c = true) s ->
  Forall (fun c => Pd.is_str c = true) (Pd.fillna (Str EmptyString) s).
Proof.
  induction 1 as [|c s Hc _ IH]; simpl; constructor; [|exact IH].
  destruct c; simpl in *; congruence.
Qed.

Lemma add_lit_total s lit :
  Forall (fun c => Pd.is_str c = true) s ->
  exists out, Pd.add_lit s lit = Ok out /\ Forall (fun c => Pd.is_str c = true) out.
Proof.
  intros Hs. destruct (mapM_total (fun c => Pd.add_cell c (Str lit)) s) as [out Hout].
  - eapply Forall_impl; [exact Hs|]. intros [| x |z] Hx; simpl in *;
      try discriminate. eauto.
  - exists out. split; [exact Hout|].
    eapply mapM_Ok_Forall; [|exact Hout]. intros x y. apply add_cell_is_str.
Qed.

Lemma combine_is_str s1 s2 :
  Forall (fun c => Pd.is_str c = true) s1 ->
  Forall (fun c => Pd.is_str c = true) s2 ->
  Forall (fun p => exists y, Pd.add_cell (fst p) (snd p) = Ok y) (combine s1 s2).
Proof.
  intros H1. revert s2. induction H1 as [|a s1 Ha _ IH]; intros s2 H2; simpl.
  - constructor.
  - destruct H2 as [|b s2 Hb H2]; constructor.
    + destruct a, b; simpl in *; try discriminate. eauto.
    + apply IH. exact H2.
Qed.

Lemma add_total s1 s2 :
  Forall (fun c => Pd.is_str c = true) s1 ->
  Forall (fun c => Pd.is_str c = true) s2 ->
  exists out, Pd.add s1 s2 = Ok out /\ Forall (fun c => Pd.is_str c = true) out.
Proof.
  intros H1 H2.
  destruct (mapM_total (fun p => Pd.add_cell (fst p) (snd p)) (combine s1 s2))
    as [out Hout]; [apply combine_is_str; assumption|].
  exists out. split; [exact Hout|].
  eapply mapM_Ok_Forall; [|exact Hout]. intros x y. apply add_cell_is_str.
Qed.

(** On text columns the join never raises, and every cell of it is a text. *)
Lemma joined_text_total sep name description message :
  Forall (fun c => is_text c = true) name ->
  Forall (fun c => is_text c = true) description ->
  Forall (fun c => is_text c = true) message ->
  exists text, joined_text sep name description message = Ok text
               /\ Forall (fun c => Pd.is_str c = true) text.
Proof.
  intros Hn Hd Hm. unfold joined_text.
  destruct (add_lit_total _ sep (fillna_is_str _ Hn)) as (n1 & -> & S1). simpl.
  destruct (add_total _ _ S1 (fillna_is_str _ Hd)) as (n2 & -> & S2). simpl.
  destruct (add_lit_total _ sep S2) as (n3 & -> & S3). simpl.
  apply add_total; [exact S3|apply fillna_is_str; exact Hm].
Qed.

Lemma str_accessor_all_str s :
  Forall (fun c => Pd.is_str c = true) s -> Pd.str_accessor s = Ok tt.
Proof.
  intros H. destruct H as [|c s Hc _]; [reflexivity|].
  unfold Pd.str_accessor. simpl. rewrite Hc. reflexivity.
Qed.

(** ** What the two builders do to the frame *)

Ltac label_ne := intros ?; discriminate.

Ltac lookup_past_inserts :=
  repeat (rewrite lookup_insert_ne by label_ne).

Lemma extract_features_Ok_inv df df' :
  extract_features df = (df', Ok tt) ->
  exists name description message cve cwe severity file text is_test,
    columns df !! "name" = Some name /\
    columns df !! "description" = Some description /\
    columns df !! "message" = Some message /\
    columns df !! "cve" = Some cve /\
    columns df !! "cwe" = Some cwe /\
    columns df !! "severity" = Some severity /\
    columns df !! "file" = Some file /\
    joined_text " " name description message = Ok text /\
    Pd.str_contains_int file = Ok is_test /\
    df' = with_features df text cve cwe severity is_test.
Proof.
  unfold extract_features. intros H.
  apply bind_getitem_inv in H as (name & Hname & H).
  apply bind_lift_inv in H as (n1 & H1 & H).
  apply bind_getitem_inv in H as (description & Hdesc & H).
  apply bind_lift_inv in H as (n2 & H2 & H).
  apply bind_lift_inv in H as (n3 & H3 & H).
  apply bind_getitem_inv in H as (message & Hmsg & H).
  apply bind_lift_inv in H as (text & H4 & H).
  rewrite bind_setitem in H.
  apply bind_getitem_inv in H as (cve & Hcve & H).
  rewrite bind_setitem in H.
  apply bind_getitem_inv in H as (cwe & Hcwe & H).
  rewrite bind_setitem in H.
  apply bind_getitem_inv in H as (severity & Hsev & H).
  rewrite bind_setitem in H.
  apply bind_getitem_inv in H as (file & Hfile & H).
  apply bind_lift_inv in H as (is_test & H5 & H).
  simpl in Hcve, Hcwe, Hsev, Hfile.
  revert Hcve Hcwe Hsev Hfile. lookup_past_inserts. intros.
  exists name, description, message, cve, cwe, severity, file, text, is_test.
  repeat split; try assumption.
  - unfold joined_text. rewrite H1. simpl. rewrite H2. simpl. rewrite H3.
    simpl. exact H4.
  - unfold Pd.setitem, modify in H. simpl in H. injection H as <-. reflexivity.
Qed.

Lemma extract_features_Ok_intro df
  name description message cve cwe severity file text is_test :
  columns df !! "name" = Some name ->
  columns df !! "description" = Some description ->
  columns df !! "message" = Some message ->
  columns df !! "cve" = Some cve ->
  columns df !! "cwe" = Some cwe ->
  columns df !! "severity" = Some severity ->
  columns df !! "file" = Some file ->
  joined_text " " name description message = Ok text ->
  Pd.str_contains_int file = Ok is_test ->
  extract_features df
  = (with_features df text cve cwe severity is_test, Ok tt).
Proof.
  intros Hname Hdesc Hmsg Hcve Hcwe Hsev Hfile Hjoin Htest.
  unfold joined_text in Hjoin.
  apply rbind_Ok_inv in Hjoin as (n1 & H1 & Hjoin).
  apply rbind_Ok_inv in Hjoin as (n2 & H2 & Hjoin).
  apply rbind_Ok_inv in Hjoin as (n3 & H3 & H4).
  unfold extract_features.
  rewrite (bind_getitem_Some _ _ _ _ Hname), (bind_lift_Ok _ _ _ _ H1).
  rewrite (bind_getitem_Some _ _ _ _ Hdesc), (bind_lift_Ok _ _ _ _ H2).
  rewrite (bind_lift_Ok _ _ _ _ H3).
  rewrite (bind_getitem_Some _ _ _ _ Hmsg), (bind_lift_Ok _ _ _ _ H4).
  rewrite bind_setitem.
  rewrite (bind_getitem_Some _ _ _ cve) by (simpl; lookup_past_inserts; exact Hcve).
  rewrite bind_setitem.
  rewrite (bind_getitem_Some _ _ _ cwe) by (simpl; lookup_past_inserts; exact Hcwe).
  rewrite bind_setitem.
  rewrite (bind_getitem_Some _ _ _ severity)
    by (simpl; lookup_past_inserts; exact Hsev).
  rewrite bind_setitem.
  rewrite (bind_getitem_Some _ _ _ file)
    by (simpl; lookup_past_inserts; exact Hfile).
  rewrite (bind_lift_Ok _ _ _ _ Htest). reflexivity.
Qed.

Lemma prepare_data_Ok_intro df name description message text :
  columns df !! "name" = Some name ->
  columns df !! "description" = Some description ->
  columns df !! "message" = Some message ->
  joined_text " [SEP] " name description message = Ok text ->
  Pd.str_accessor text = Ok tt ->
  prepare_data df
  = (mkDF (nrows df)
       (<["text" := map (fun c => match c with
                                  | Str x => Str (Py.slice_to 500 x)
                                  | _ => NaN
                                  end) text]> (columns df)), Ok tt).
Proof.
  intros Hname Hdesc Hmsg Hjoin Hacc.
  unfold joined_text in Hjoin.
  apply rbind_Ok_inv in Hjoin as (n1 & H1 & Hjoin).
  apply rbind_Ok_inv in Hjoin as (n2 & H2 & Hjoin).
  apply rbind_Ok_inv in Hjoin as (n3 & H3 & H4).
  unfold prepare_data.
  rewrite (bind_getitem_Some _ _ _ _ Hname), (bind_lift_Ok _ _ _ _ H1).
  rewrite (bind_getitem_Some _ _ _ _ Hdesc), (bind_lift_Ok _ _ _ _ H2).
  rewrite (bind_lift_Ok _ _ _ _ H3).
  rewrite (bind_getitem_Some _ _ _ _ Hmsg), (bind_lift_Ok _ _ _ _ H4).
  rewrite bind_setitem.
  rewrite (bind_getitem_Some _ _ _ text) by (simpl; apply lookup_insert_eq).
  erewrite bind_lift_Ok by (unfold Pd.str_slice_to; rewrite Hacc; reflexivity).
  unfold Pd.setitem, modify. simpl. rewrite insert_insert_eq. reflexivity.
Qed.

(** ** The feature builder: severity, flags, text, mutation *)


Lemma with_features_lookup_severity df text cve cwe severity is_test :
  columns (with_features df text cve cwe severity is_test) !! "severity_numeric"
  = Some (Pd.fillna (Num 2) (Pd.map_dict severity_map severity)).
Proof.
  unfold with_features. simpl. lookup_past_inserts. apply lookup_insert_eq.
Qed.

(** one cell through [.map(severity_map).fillna(2)] *)
Lemma severity_cell (c : cell) :
  exists v,
    Pd.fillna (Num 2) (Pd.map_dict severity_map [c]) = [Num v]
    /\ 0 <= v <= 4
    /\ (c = Str "CRITICAL" -> v = 4)
    /\ (c = Str "HIGH" -> v = 3)
    /\ (c = Str "MEDIUM" -> v = 2)
    /\ (c = Str "LOW" -> v = 1)
    /\ (c = Str "INFO" -> v = 0)
    /\ (c <> Str "CRITICAL" -> c <> Str "HIGH" -> c <> Str "MEDIUM" ->
        c <> Str "LOW" -> c <> Str "INFO" -> v = 2).
Proof.
  destruct c as [|k|z];
    try (exists 2; repeat split; (discriminate || lia || reflexivity)).
  unfold severity_map. simpl.
  destruct (String.eqb_spec k "CRITICAL") as [->|N1];
    [exists 4; repeat split; (congruence || lia)|].
  destruct (String.eqb_spec k "HIGH") as [->|N2];
    [exists 3; repeat split; (congruence || lia)|].
  destruct (String.eqb_spec k "MEDIUM") as [->|N3];
    [exists 2; repeat split; (congruence || lia)|].
  destruct (String.eqb_spec k "LOW") as [->|N4];
    [exists 1; repeat split; (congruence || lia)|].
  destruct (String.eqb_spec k "INFO") as [->|N5];
    [exists 0; repeat split; (congruence || lia)|].
  exists 2. repeat split; (congruence || lia).
Qed.

(** C5. For every record of a table the feature builder returns,
    severity_numeric is a number among 0, 1, 2, 3, 4: CRITICAL gives 4,
    HIGH 3, MEDIUM 2, LOW 1, INFO 0, and a missing severity or one that is
    none of these five gives 2. *)
Theorem severity_numeric_mapping (df df' : DataFrame) (severity : Series)
  (i : nat) (c : cell) :
  extract_features df = (df', Ok tt) ->
  columns df !! "severity" = Some severity ->
  severity !! i = Some c ->
  exists (out : Series) (v : Z),
    columns df' !! "severity_numeric" = Some out
    /\ out !! i = Some (Num v)
    /\ 0 <= v <= 4
    /\ (c = Str "CRITICAL" -> v = 4)
    /\ (c = Str "HIGH" -> v = 3)
    /\ (c = Str "MEDIUM" -> v = 2)
    /\ (c = Str "LOW" -> v = 1)
    /\ (c = Str "INFO" -> v = 0)
    /\ (c <> Str "CRITICAL" -> c <> Str "HIGH" -> c <> Str "MEDIUM" ->
        c <> Str "LOW" -> c <> Str "INFO" -> v = 2).
Proof.
  intros H Hsev Hi.
  apply extract_features_Ok_inv in H
    as (name & description & message & cve & cwe & severity' & file & text
        & is_test & _ & _ & _ & _ & _ & Hsev' & _ & _ & _ & ->).
  rewrite Hsev in Hsev'. injection Hsev' as <-.
  destruct (severity_cell c) as (v & Hv & Hrest).
  exists (Pd.fillna (Num 2) (Pd.map_dict severity_map severity)), v.
  split; [apply with_features_lookup_severity|].
  split; [|exact Hrest].
  unfold Pd.fillna, Pd.map_dict in *. rewrite !lookup_map, Hi.
  simpl in Hv. injection Hv as Hv.
  cbv [fmap option_fmap option_map]. f_equal. exact Hv.
Qed.

Lemma severity_numeric_mapping_witness :
  exists (out : Series) (v : Z),
    columns (fst (extract_features empty_cve_frame)) !! "severity_numeric"
      = Some out
    /\ out !! 0%nat = Some (Num v) /\ v = 2.
Proof.
  destruct (severity_numeric_mapping empty_cve_frame
              (fst (extract_features empty_cve_frame)) [Str "high"] 0
              (Str "high"))
    as (out & v & H1 & H2 & _ & _ & _ & _ & _ & _ & H3);
    [vm_compute; reflexivity | vm_compute; reflexivity | reflexivity |].
  exists out, v. split; [exact H1|]. split; [exact H2|].
  apply H3; discriminate.
Defined.

Lemma with_features_lookup_has_cve df text cve cwe severity is_test :
  columns (with_features df text cve cwe severity is_test) !! "has_cve"
  = Some (Pd.notna_int cve).
Proof.
  unfold with_features. simpl. lookup_past_inserts. apply lookup_insert_eq.
Qed.

Lemma with_features_lookup_has_cwe df text cve cwe severity is_test :
  columns (with_features df text cve cwe severity is_test) !! "has_cwe"
  = Some (Pd.notna_int cwe).
Proof.
  unfold with_features. simpl. lookup_past_inserts. apply lookup_insert_eq.
Qed.

Lemma with_features_lookup_text df text cve cwe severity is_test :
  columns (with_features df text cve cwe severity is_test) !! "text"
  = Some text.
Proof.
  unfold with_features. simpl. lookup_past_inserts. apply lookup_insert_eq.
Qed.






(** C3, as stated, fails for the classical backend: a name of 501
    characters gives a combined text of 503 characters. *)
Lemma classical_text_not_truncated_counterexample :
  ~ text_at_most_500 extract_features long_name_frame.
Proof.
  intros H.
  specialize (H (fst (extract_features long_name_frame))
                [Str (repeat_char 501 "a" +:+ "  ")] 0%nat
                (repeat_char 501 "a" +:+ "  ")).
  assert (E : (String.length (repeat_char 501 "a" +:+ "  ") <= 500)%nat).
  { apply H; vm_compute; reflexivity. }
  vm_compute in E. lia.
Qed.

(** C3, amended. On text columns (texts or missing values) the transformer
    backend's [prepare_data] never raises and leaves, for every record, the
    first 500 characters of name, description and message joined by
    " [SEP] ", hence at most 500 characters; an over-long join is cut, not
    refused. The classical backend's [extract_features] does not truncate:
    whenever it returns, its text is the whole join by single spaces, of
    length len(name) + len(description) + len(message) + 2. *)
Theorem text_truncation_by_backend (df : DataFrame)
  (name description message : Series) :
  columns df !! "name" = Some name ->
  columns df !! "description" = Some description ->
  columns df !! "message" = Some message ->
  Forall (fun c => is_text c = true) name ->
  Forall (fun c => is_text c = true) description ->
  Forall (fun c => is_text c = true) message ->
  (exists (df' : DataFrame) (text : Series),
     prepare_data df = (df', Ok tt)
     /\ columns df' !! "text" = Some text
     /\ forall i a b c,
          name !! i = Some a -> description !! i = Some b ->
          message !! i = Some c ->
          exists s,
            text !! i = Some (Str s)
            /\ s = Py.slice_to 500
                     ((((txt a +:+ " [SEP] ") +:+ txt b) +:+ " [SEP] ") +:+ txt c)
            /\ (String.length s <= 500)%nat)
  /\ (forall df',
        extract_features df = (df', Ok tt) ->
        exists text : Series,
          columns df' !! "text" = Some text
          /\ forall i a b c,
               name !! i = Some a -> description !! i = Some b ->
               message !! i = Some c ->
               exists s,
                 text !! i = Some (Str s)
                 /\ s = (((txt a +:+ " ") +:+ txt b) +:+ " ") +:+ txt c
                 /\ String.length s
                    = (String.length (txt a) + String.length (txt b)
                       + String.length (txt c) + 2)%nat).
Proof.
  intros Hname Hdesc Hmsg Tn Td Tm. split.
  - destruct (joined_text_total " [SEP] " _ _ _ Tn Td Tm) as (text & Hjoin & Hstr).
    eexists _, _. split; [|split].
    + eapply prepare_data_Ok_intro; eauto using str_accessor_all_str.
    + simpl. apply lookup_insert_eq.
    + intros i a b c Ha Hb Hc.
      pose proof (joined_text_lookup _ _ _ _ _ _ _ _ _ Hjoin Ha Hb Hc) as E.
      exists (Py.slice_to 500
                ((((txt a +:+ " [SEP] ") +:+ txt b) +:+ " [SEP] ") +:+ txt c)).
      split; [rewrite lookup_map, E; reflexivity|].
      split; [reflexivity|]. rewrite length_slice_to. lia.
  - intros df' H.
    apply extract_features_Ok_inv in H
      as (name' & description' & message' & cve & cwe & severity & file & text
          & is_test & Hn' & Hd' & Hm' & _ & _ & _ & _ & Hjoin & _ & ->).
    rewrite Hname in Hn'. injection Hn' as <-.
    rewrite Hdesc in Hd'. injection Hd' as <-.
    rewrite Hmsg in Hm'. injection Hm' as <-.
    exists text. split; [apply with_features_lookup_text|].
    intros i a b c Ha Hb Hc.
    pose proof (joined_text_lookup _ _ _ _ _ _ _ _ _ Hjoin Ha Hb Hc) as E.
    eexists. split; [exact E|]. split; [reflexivity|].
    rewrite !length_append. simpl. lia.
Qed.

Lemma text_truncation_by_backend_witness :
  (exists text : Series,
     columns (fst (prepare_data long_name_frame)) !! "text" = Some text
     /\ exists s, text !! 0%nat = Some (Str s) /\ String.length s = 500%nat)
  /\ (exists text : Series,
        columns (fst (extract_features long_name_frame)) !! "text" = Some text
        /\ exists s, text !! 0%nat = Some (Str s) /\ String.length s = 503%nat).
Proof.
  destruct (text_truncation_by_backend long_name_frame
              [Str (repeat_char 501 "a")] [Str EmptyString] [Str EmptyString]
              ltac:(vm_compute; reflexivity) ltac:(vm_compute; reflexivity)
              ltac:(vm_compute; reflexivity) ltac:(repeat constructor)
              ltac:(repeat constructor) ltac:(repeat constructor))
    as [(df' & text & Hrun & Htext & Hrow) Hnb].
  split.
  - exists text. rewrite Hrun. split; [exact Htext|].
    destruct (Hrow 0%nat (Str (repeat_char 501 "a")) (Str EmptyString) (Str EmptyString)
                eq_refl eq_refl eq_refl) as (s & Hs & -> & _).
    eexists. split; [exact Hs|]. vm_compute. reflexivity.
  - destruct (Hnb (fst (extract_features long_name_frame)))
      as (text' & Htext' & Hrow'); [vm_compute; reflexivity|].
    exists text'. split; [exact Htext'|].
    destruct (Hrow' 0%nat (Str (repeat_char 501 "a")) (Str EmptyString) (Str EmptyString)
                eq_refl eq_refl eq_refl) as (s & Hs & -> & _).
    eexists. split; [exact Hs|]. vm_compute. reflexivity.
Defined.

Lemma with_features_lookup_is_test df text cve cwe severity is_test :
  columns (with_features df text cve cwe severity is_test) !! "is_test_file"
  = Some is_test.
Proof. unfold with_features. simpl. apply lookup_insert_eq. Qed.

Lemma with_features_lookup_other df text cve cwe severity is_test l :
  l ∉ derived_columns ->
  columns (with_features df text cve cwe severity is_test) !! l
  = columns df !! l.
Proof.
  unfold derived_columns. intros Hl.
  repeat (apply not_elem_of_cons in Hl as [? Hl]).
  unfold with_features. simpl.
  repeat (rewrite lookup_insert_ne by congruence). reflexivity.
Qed.

Lemma source_not_derived l : l ∈ source_columns -> l ∉ derived_columns.
Proof.
  unfold source_columns, derived_columns. intros Hl Hd.
  repeat (apply elem_of_cons in Hl as [->|Hl]);
    try (apply elem_of_nil in Hl; contradiction);
    repeat (apply elem_of_cons in Hd as [Hd|Hd]; [discriminate Hd|]);
    apply elem_of_nil in Hd; contradiction.
Qed.

(** A second run on the table the first run left finds its own columns
    there and writes the same values again. *)
Lemma with_features_again df text cve cwe severity is_test :
  with_features (with_features df text cve cwe severity is_test)
    text cve cwe severity is_test
  = with_features df text cve cwe severity is_test.
Proof.
  unfold with_features at 1. f_equal.
  rewrite (insert_id _ "text" text) by apply with_features_lookup_text.
  rewrite (insert_id _ "has_cve") by apply with_features_lookup_has_cve.
  rewrite (insert_id _ "has_cwe") by apply with_features_lookup_has_cwe.
  rewrite (insert_id _ "severity_numeric")
    by apply with_features_lookup_severity.
  rewrite (insert_id _ "is_test_file") by apply with_features_lookup_is_test.
  reflexivity.
Qed.

(** C9, as stated, fails: the call changes the table it is given. *)
Lemma extract_features_mutates_counterexample :
  ~ leaves_input_unchanged sample_frame.
Proof.
  intros H.
  specialize (H (fst (extract_features sample_frame)) (Ok tt)).
  assert (E : fst (extract_features sample_frame) = sample_frame).
  { apply H. vm_compute. reflexivity. }
  apply (f_equal (fun d => columns d !! "text")) in E.
  vm_compute in E. discriminate E.
Qed.

(** C9, amended. The feature builder is deterministic and works in place:
    a successful call returns the very table it was given, with the columns
    text, has_cve, has_cwe, severity_numeric and is_test_file written into
    it and every other column and the row count untouched; a second call on
    that table succeeds and changes nothing; and the five columns depend on
    the seven source columns only, so two tables that agree on them get the
    same five columns. *)
Theorem extract_features_in_place (df df' : DataFrame) :
  extract_features df = (df', Ok tt) ->
  nrows df' = nrows df
  /\ (forall l, l ∉ derived_columns -> columns df' !! l = columns df !! l)
  /\ (forall l, l ∈ derived_columns -> is_Some (columns df' !! l))
  /\ extract_features df' = (df', Ok tt)
  /\ (forall other : DataFrame,
        (forall l, l ∈ source_columns -> columns other !! l = columns df !! l) ->
        exists other',
          extract_features other = (other', Ok tt)
          /\ forall l, l ∈ derived_columns ->
                       columns other' !! l = columns df' !! l).
Proof.
  intros H.
  apply extract_features_Ok_inv in H
    as (name & description & message & cve & cwe & severity & file & text
        & is_test & Hn & Hd & Hm & Hcve & Hcwe & Hsev & Hfile & Hjoin & Htest
        & ->).
  assert (Hsrc : forall l, l ∈ source_columns ->
            columns (with_features df text cve cwe severity is_test) !! l
            = columns df !! l).
  { intros l Hl. apply with_features_lookup_other, source_not_derived, Hl. }
  assert (Hall : forall l, l ∈ derived_columns ->
            forall d, columns (with_features d text cve cwe severity is_test) !! l
            = columns (with_features df text cve cwe severity is_test) !! l).
  { unfold derived_columns. intros l Hl d.
    repeat (apply elem_of_cons in Hl as [->|Hl]);
      try (apply elem_of_nil in Hl; contradiction).
    - rewrite !with_features_lookup_text. reflexivity.
    - rewrite !with_features_lookup_has_cve. reflexivity.
    - rewrite !with_features_lookup_has_cwe. reflexivity.
    - rewrite !with_features_lookup_severity. reflexivity.
    - rewrite !with_features_lookup_is_test. reflexivity. }
  split; [reflexivity|].
  split; [intros l Hl; apply with_features_lookup_other, Hl|].
  split.
  { unfold derived_columns. intros l Hl.
    repeat (apply elem_of_cons in Hl as [->|Hl]);
      try (apply elem_of_nil in Hl; contradiction).
    - rewrite with_features_lookup_text. eauto.
    - rewrite with_features_lookup_has_cve. eauto.
    - rewrite with_features_lookup_has_cwe. eauto.
    - rewrite with_features_lookup_severity. eauto.
    - rewrite with_features_lookup_is_test. eauto. }
  split.
  { rewrite <- (with_features_again df text cve cwe severity is_test) at 2.
    apply extract_features_Ok_intro with (name := name)
      (description := description) (message := message) (file := file);
      try assumption; rewrite Hsrc; try assumption;
      unfold source_columns; set_solver. }
  intros other Hother.
  exists (with_features other text cve cwe severity is_test). split.
  - apply extract_features_Ok_intro with (name := name)
      (description := description) (message := message) (file := file);
      try assumption; rewrite Hother; try assumption;
      unfold source_columns; set_solver.
  - intros l Hl. apply Hall, Hl.
Qed.

Lemma extract_features_in_place_witness :
  extract_features (fst (extract_features sample_frame))
  = (fst (extract_features sample_frame), Ok tt)
  /\ columns (fst (extract_features sample_frame)) !! "line"
     = columns sample_frame !! "line".
Proof.
  destruct (extract_features_in_place sample_frame
              (fst (extract_features sample_frame))
              ltac:(vm_compute; reflexivity))
    as (_ & Hother & _ & Hagain & _).
  split; [exact Hagain|]. apply Hother.
  unfold derived_columns. intros Hl.
  repeat (apply elem_of_cons in Hl as [Hl|Hl]; [discriminate Hl|]).
  apply elem_of_nil in Hl. exact Hl.
Defined.

(** ** Saving the classical artifact *)

Lemma write_file_ok {T} (w : World T) p content :
  fs w !! p <> Some Dir ->
  fails w (OpenW p) = false -> fails w (WriteTo p) = false ->
  write_file p content w = (set_fs (insert p content) w, Ok tt).
Proof.
  intros Hd Ho Hw. unfold write_file. rewrite Ho, Hw.
  destruct (fs w !! p) as [[]|]; try reflexivity. congruence.
Qed.

Lemma write_file_open_fails {T} (w : World T) p content :
  fails w (OpenW p) = true ->
  write_file p content w = (w, Raise OSError).
Proof.
  intros Ho. unfold write_file. rewrite Ho.
  destruct (fs w !! p) as [[]|]; reflexivity.
Qed.

Lemma write_file_write_fails {T} (w : World T) p content :
  fs w !! p <> Some Dir ->
  fails w (OpenW p) = false -> fails w (WriteTo p) = true ->
  write_file p content w = (set_fs (insert p Truncated) w, Raise OSError).
Proof.
  intros Hd Ho Hw. unfold write_file. rewrite Ho, Hw.
  destruct (fs w !! p) as [[]|]; try reflexivity. congruence.
Qed.

Lemma makedirs_models {T} (w : World T) :
  fs w !! "models" = Some Dir
  \/ (fs w !! "models" = None /\ fails w (Mkdir "models") = false) ->
  exists w1, makedirs ["models"] w = (w1, Ok tt)
             /\ stdin w1 = stdin w /\ stdout w1 = stdout w
             /\ fails w1 = fails w
             /\ forall p, p <> "models" -> fs w1 !! p = fs w !! p.
Proof.
  intros [H|[H Hf]]; unfold makedirs, bind, mkdir_exist_ok; rewrite H.
  - exists w. simpl. auto.
  - rewrite Hf. eexists. split; [reflexivity|]. simpl.
    repeat split; try reflexivity.
    intros p Hp. apply lookup_insert_ne. congruence.
Qed.

(** Lines 106-119 on their own. The save writes the classifier file first
    and the vectorizer file second, each by a plain overwrite, with nothing
    undone on failure. When the directory and the classifier file can be
    written: the classifier file holds the new classifier in every case; if
    the vectorizer file can be written too the save returns and that file
    holds the new vectorizer; if it cannot be opened the save raises and
    that file is what it was before; if writing it fails after opening the
    save raises and that file is left truncated. No run of [train_model]
    gets this far when [len] of the training matrix raises. *)
Lemma save_writes_classifier_then_vectorizer {T : LibTypes} (w : World T)
  (model : Classifier T) (vectorizer : Vectorizer T) :
  (fs w !! "models" = Some Dir
   \/ (fs w !! "models" = None /\ fails w (Mkdir "models") = false)) ->
  fs w !! model_file <> Some Dir ->
  fails w (OpenW model_file) = false ->
  fails w (WriteTo model_file) = false ->
  let w' := fst (train_model_save model vectorizer w) in
  let r := snd (train_model_save model vectorizer w) in
  fs w' !! model_file = Some (PickleFile (ModelObj model))
  /\ (fs w !! vectorizer_file <> Some Dir ->
      fails w (OpenW vectorizer_file) = false ->
      fails w (WriteTo vectorizer_file) = false ->
      r = Ok tt
      /\ fs w' !! vectorizer_file = Some (PickleFile (VectorizerObj vectorizer)))
  /\ (fails w (OpenW vectorizer_file) = true ->
      r = Raise OSError
      /\ fs w' !! vectorizer_file = fs w !! vectorizer_file)
  /\ (fs w !! vectorizer_file <> Some Dir ->
      fails w (OpenW vectorizer_file) = false ->
      fails w (WriteTo vectorizer_file) = true ->
      r = Raise OSError /\ fs w' !! vectorizer_file = Some Truncated).
Proof.
  intros Hdir Hm Hmo Hmw.
  destruct (makedirs_models w Hdir) as (w1 & Hmk & Hin & Hout & Hfl & Hfs).
  assert (Hw1 : write_file model_file (PickleFile (ModelObj model)) w1
                = (set_fs (insert model_file (PickleFile (ModelObj model))) w1,
                   Ok tt)).
  { apply write_file_ok; rewrite ?Hfl; try assumption.
    rewrite Hfs by discriminate. exact Hm. }
  set (w2 := set_fs (insert model_file (PickleFile (ModelObj model))) w1) in *.
  assert (Hv2 : fs w2 !! vectorizer_file = fs w !! vectorizer_file).
  { unfold w2. simpl. rewrite lookup_insert_ne by discriminate.
    apply Hfs. discriminate. }
  assert (Hm2 : fs w2 !! model_file = Some (PickleFile (ModelObj model))).
  { unfold w2. simpl. apply lookup_insert_eq. }
  assert (Hf2 : fails w2 = fails w) by exact Hfl.
  assert (Hrun : train_model_save model vectorizer w
                 = bind (write_file vectorizer_file
                           (PickleFile (VectorizerObj vectorizer)))
                     (fun _ => bind (print (ModelSaved model_file))
                        (fun _ => print (VectorizerSaved vectorizer_file))) w2).
  { unfold train_model_save. unfold bind at 1. rewrite Hmk.
    unfold bind at 1. rewrite Hw1. reflexivity. }
  cbv zeta. rewrite Hrun. clear Hrun. unfold bind at 1 3 5 7 9 11 13.
  destruct (write_file vectorizer_file (PickleFile (VectorizerObj vectorizer)) w2)
    as [w3 r3] eqn:Hw3.
  assert (Hm3 : fs w3 !! model_file = Some (PickleFile (ModelObj model))).
  { unfold write_file in Hw3.
    destruct (fs w2 !! vectorizer_file) as [[]|];
      destruct (fails w2 (OpenW vectorizer_file));
      destruct (fails w2 (WriteTo vectorizer_file));
      injection Hw3 as <- <-; simpl;
      rewrite ?lookup_insert_ne by discriminate; exact Hm2. }
  split; [destruct r3; [|exact Hm3]; simpl; exact Hm3|].
  split; [|split].
  - intros Hvd Hvo Hvw.
    rewrite write_file_ok in Hw3
      by (rewrite ?Hv2, ?Hf2; assumption).
    injection Hw3 as <- <-. simpl. split; [reflexivity|].
    apply lookup_insert_eq.
  - intros Hvo.
    rewrite write_file_open_fails in Hw3 by (rewrite Hf2; assumption).
    injection Hw3 as <- <-. simpl. split; [reflexivity|exact Hv2].
  - intros Hvd Hvo Hvw.
    rewrite write_file_write_fails in Hw3
      by (rewrite ?Hv2, ?Hf2; assumption).
    injection Hw3 as <- <-. simpl. split; [reflexivity|].
    apply lookup_insert_eq.
Qed.

(** The save alone, started with the pair of an earlier run on disk and a
    vectorizer file that cannot be opened. *)
Lemma save_with_unwritable_vectorizer :
  fs (fst (train_model_save (T := numbered) 2%nat 2%nat world_with_old_pair)) !! model_file
  = Some (PickleFile (ModelObj (T := numbered) 2%nat))
  /\ snd (train_model_save (T := numbered) 2%nat 2%nat world_with_old_pair) = Raise OSError
  /\ fs (fst (train_model_save (T := numbered) 2%nat 2%nat world_with_old_pair))
       !! vectorizer_file
     = Some (PickleFile (VectorizerObj (T := numbered) 1%nat)).
Proof.
  destruct (save_writes_classifier_then_vectorizer (T := numbered)
              world_with_old_pair 2%nat 2%nat
              ltac:(left; vm_compute; reflexivity)
              ltac:(vm_compute; discriminate)
              ltac:(reflexivity) ltac:(reflexivity))
    as (Hm & _ & Hopen & _).
  destruct (Hopen ltac:(reflexivity)) as [Hr Hv].
  split; [exact Hm|]. split; [exact Hr|].
  rewrite Hv. vm_compute. reflexivity.
Defined.

(** ** Missing input and the low-data gate *)

Lemma load_data_missing {T} {L : Library T} (w : World T) hint :
  fs w !! csv_file = None ->
  load_data hint w
  = (printed [TrainingCsvMissing; RunCollectorFirst hint] w, Ok None).
Proof.
  intros H. unfold load_data, bind, path_exists. rewrite H. simpl.
  unfold printed. simpl. rewrite <- app_assoc. reflexivity.
Qed.

Lemma load_data_present {T} {L : Library T} (w : World T) hint f df :
  fs w !! csv_file = Some f -> read_csv f = Ok df ->
  load_data hint w = (printed [RecordsLoaded (nrows df)] w, Ok (Some df)).
Proof.
  intros H Hr. unfold load_data, bind, path_exists. rewrite H. simpl.
  rewrite ?H, Hr. reflexivity.
Qed.

(** C8. When data/training_data.csv is absent, both trainers print the
    diagnostic, return normally and leave the file system as it was, so
    nothing is written under models/. *)
Theorem missing_csv_stops_both_trainers {T : LibTypes} {L : Library T}
  (w : World T) :
  fs w !! csv_file = None ->
  main w
  = (printed [BannerNaiveBayes; TrainingCsvMissing; RunCollectorFirst true] w,
     Ok tt)
  /\ train_bert w
     = (printed [BannerBert; TrainingCsvMissing; RunCollectorFirst false] w,
        Ok tt)
  /\ fs (fst (main w)) = fs w
  /\ fs (fst (train_bert w)) = fs w.
Proof.
  intros H.
  assert (Hm : main w
    = (printed [BannerNaiveBayes; TrainingCsvMissing; RunCollectorFirst true] w,
       Ok tt)).
  { unfold main. unfold bind at 1. simpl.
    unfold bind at 1. rewrite load_data_missing by exact H.
    unfold printed. simpl. rewrite <- app_assoc. reflexivity. }
  assert (Hb : train_bert w
    = (printed [BannerBert; TrainingCsvMissing; RunCollectorFirst false] w,
       Ok tt)).
  { unfold train_bert. unfold bind at 1. simpl.
    unfold bind at 1. rewrite load_data_missing by exact H.
    unfold printed. simpl. rewrite <- app_assoc. reflexivity. }
  rewrite Hm, Hb. auto.
Qed.

Lemma missing_csv_stops_both_trainers_witness :
  snd (main (L := parser_only sample_frame) world_without_csv) = Ok tt
  /\ fs (fst (main (L := parser_only sample_frame) world_without_csv))
     = fs world_without_csv
  /\ snd (train_bert (L := parser_only sample_frame) world_without_csv) = Ok tt
  /\ fs (fst (train_bert (L := parser_only sample_frame) world_without_csv))
     = fs world_without_csv.
Proof.
  destruct (missing_csv_stops_both_trainers (L := parser_only sample_frame)
              world_without_csv ltac:(vm_compute; reflexivity))
    as (Hm & Hb & Hfm & Hfb).
  rewrite Hm, Hb in *. auto.
Defined.

Lemma low_data_gate_below {T} (w : World T) df threshold recommended :
  (nrows df < threshold)%nat ->
  low_data_gate df threshold recommended w
  = match stdin w with
    | [] => (printed [LowData (nrows df) recommended; ContinueAnyway] w,
             Raise EOFError)
    | answer :: rest =>
        (answered [LowData (nrows df) recommended; ContinueAnyway] rest w,
         Ok (String.eqb (Py.lower answer) "s"))
    end.
Proof.
  intros H. unfold low_data_gate.
  apply Nat.ltb_lt in H. rewrite H.
  unfold bind, print, modify, input, printed, answered. simpl.
  destruct (stdin w); simpl; rewrite <- app_assoc; reflexivity.
Qed.

(** [answer.lower() == 's'] holds for the answers "s" and "S" only. *)
Lemma lower_is_s (answer : string) :
  String.eqb (Py.lower answer) "s" = true <-> answer = "s" \/ answer = "S".
Proof.
  rewrite String.eqb_eq. split.
  - destruct answer as [|c [|c' rest]]; simpl; try discriminate.
    intros [= H]. revert H.
    destruct c as [[] [] [] [] [] [] [] []]; vm_compute;
      (discriminate || auto).
  - intros [->| ->]; reflexivity.
Qed.

(** C7. Below the soft threshold (50 records for the classical trainer,
    100 for the transformer trainer) the trainer always prints the low-data
    warning and the question, then reads the operator's answer: only if the
    answer lower-cases to "s" does it go on to the training part; on any
    other answer it returns, and on a closed input it raises, in both cases
    with the file system untouched and nothing more printed. *)
Theorem low_data_needs_confirmation {T : LibTypes} {L : Library T}
  (w : World T) (f : file T) (df : DataFrame) :
  fs w !! csv_file = Some f ->
  read_csv f = Ok df ->
  ((nrows df < 50)%nat ->
   let seen := [BannerNaiveBayes; RecordsLoaded (nrows df);
                LowData (nrows df) "50-100"; ContinueAnyway] in
   match stdin w with
   | [] => main w = (printed seen w, Raise EOFError)
   | answer :: rest =>
       if String.eqb (Py.lower answer) "s"
       then main w = main_train df (answered seen rest w)
       else main w = (answered seen rest w, Ok tt)
   end)
  /\ ((nrows df < 100)%nat ->
      let seen := [BannerBert; RecordsLoaded (nrows df);
                   LowData (nrows df) "100-200"; ContinueAnyway] in
      match stdin w with
      | [] => train_bert w = (printed seen w, Raise EOFError)
      | answer :: rest =>
          if String.eqb (Py.lower answer) "s"
          then train_bert w = train_bert_fit df (answered seen rest w)
          else train_bert w = (answered seen rest w, Ok tt)
      end).
Proof.
  intros Hf Hr.
  assert (Hmain : main w
    = match low_data_gate df 50 "50-100"
              (printed [BannerNaiveBayes; RecordsLoaded (nrows df)] w) with
      | (w', Ok go_on) => if negb go_on then (w', Ok tt) else main_train df w'
      | (w', Raise e) => (w', Raise e)
      end).
  { unfold main. unfold bind at 1. simpl. unfold bind at 1.
    rewrite (load_data_present _ _ f df) by assumption.
    unfold bind at 1. unfold printed. simpl. rewrite <- app_assoc.
    simpl. destruct (low_data_gate df 50 _ _) as [w' [[]|e]]; reflexivity. }
  assert (Hbert : train_bert w
    = match low_data_gate df 100 "100-200"
              (printed [BannerBert; RecordsLoaded (nrows df)] w) with
      | (w', Ok go_on) =>
          if negb go_on then (w', Ok tt) else train_bert_fit df w'
      | (w', Raise e) => (w', Raise e)
      end).
  { unfold train_bert. unfold bind at 1. simpl. unfold bind at 1.
    rewrite (load_data_present _ _ f df) by assumption.
    unfold bind at 1. unfold printed. simpl. rewrite <- app_assoc.
    simpl. destruct (low_data_gate df 100 _ _) as [w' [[]|e]]; reflexivity. }
  split; intros Hn; cbv zeta.
  - rewrite Hmain, low_data_gate_below by exact Hn.
    unfold printed, answered. simpl.
    destruct (stdin w) as [|answer rest]; simpl.
    + rewrite <- ?app_assoc. reflexivity.
    + rewrite <- ?app_assoc. simpl.
      destruct (String.eqb (Py.lower answer) "s"); reflexivity.
  - rewrite Hbert, low_data_gate_below by exact Hn.
    unfold printed, answered. simpl.
    destruct (stdin w) as [|answer rest]; simpl.
    + rewrite <- ?app_assoc. reflexivity.
    + rewrite <- ?app_assoc. simpl.
      destruct (String.eqb (Py.lower answer) "s"); reflexivity.
Qed.

Lemma low_data_needs_confirmation_witness :
  main (L := parser_only sample_frame) (world_with_small_csv ["n"])
  = (answered [BannerNaiveBayes; RecordsLoaded 1; LowData 1 "50-100";
               ContinueAnyway] [] (world_with_small_csv ["n"]), Ok tt)
  /\ train_bert (L := parser_only sample_frame) (world_with_small_csv [])
     = (printed [BannerBert; RecordsLoaded 1; LowData 1 "100-200";
                 ContinueAnyway] (world_with_small_csv []), Raise EOFError)
  /\ main (L := parser_only sample_frame) (world_with_small_csv ["S"])
     = main_train (L := parser_only sample_frame) sample_frame
         (answered [BannerNaiveBayes; RecordsLoaded 1; LowData 1 "50-100";
                    ContinueAnyway] [] (world_with_small_csv ["S"])).
Proof.
  split; [|split].
  - destruct (low_data_needs_confirmation (L := parser_only sample_frame)
                (world_with_small_csv ["n"]) (OtherFile "one record")
                sample_frame ltac:(vm_compute; reflexivity) eq_refl)
      as [Hnb _].
    exact (Hnb ltac:(simpl; lia)).
  - destruct (low_data_needs_confirmation (L := parser_only sample_frame)
                (world_with_small_csv []) (OtherFile "one record")
                sample_frame ltac:(vm_compute; reflexivity) eq_refl)
      as [_ Hbert].
    exact (Hbert ltac:(simpl; lia)).
  - destruct (low_data_needs_confirmation (L := parser_only sample_frame)
                (world_with_small_csv ["S"]) (OtherFile "one record")
                sample_frame ltac:(vm_compute; reflexivity) eq_refl)
      as [Hnb _].
    exact (Hnb ltac:(simpl; lia)).
Defined.

(** ** The record collector *)

Section Collector.

Context {T : LibTypes}.

Lemma related_printed (w1 w2 : World T) ms1 ms2 :
  related w1 w2 -> related (printed ms1 w1) (printed ms2 w2).
Proof. intros H. exact H. Qed.

Lemma alike_bind {A B} (m : M (World T) A) (k : A -> M (World T) B) w1 w2 :
  alike (m w1) (m w2) ->
  (forall a w1' w2', related w1' w2' -> alike (k a w1') (k a w2')) ->
  alike (bind m k w1) (bind m k w2).
Proof.
  unfold alike, bind. intros [Hw Hr] Hk.
  destruct (m w1) as [w1' r1], (m w2) as [w2' r2]. simpl in *. subst r2.
  destruct r1 as [a|e]; [apply Hk, Hw|]. simpl. auto.
Qed.

Lemma alike_print {w1 w2 : World T} m :
  related w1 w2 -> alike (print m w1) (print m w2).
Proof. intros H. split; [exact H|reflexivity]. Qed.

Lemma related_insert (w1 w2 : World T) p f :
  p <> feedback_file -> related w1 w2 ->
  related (set_fs (insert p f) w1) (set_fs (insert p f) w2).
Proof.
  intros Hp ((Hin & Hfl & Hfs) & H1 & H2).
  split; [|split].
  - repeat split; try assumption. intros q Hq. simpl.
    destruct (decide (p = q)) as [->|Hpq].
    + rewrite !lookup_insert_eq. reflexivity.
    + rewrite !lookup_insert_ne by exact Hpq. apply Hfs, Hq.
  - unfold feedback_ok in *. simpl. rewrite lookup_insert_ne by exact Hp.
    exact H1.
  - unfold feedback_ok in *. simpl. rewrite lookup_insert_ne by exact Hp.
    exact H2.
Qed.

Lemma alike_mkdir (w1 w2 : World T) p :
  p <> feedback_file -> related w1 w2 ->
  alike (mkdir_exist_ok p w1) (mkdir_exist_ok p w2).
Proof.
  intros Hp H. pose proof H as ((Hin & Hfl & Hfs) & _ & _).
  unfold mkdir_exist_ok. rewrite <- (Hfs p Hp), <- Hfl.
  destruct (fs w1 !! p) as [[]|]; try (split; [exact H|reflexivity]).
  destruct (fails w1 (Mkdir p)); [split; [exact H|reflexivity]|].
  split; [apply related_insert; assumption|reflexivity].
Qed.

Lemma alike_write_file (w1 w2 : World T) p content :
  p <> feedback_file -> related w1 w2 ->
  alike (write_file p content w1) (write_file p content w2).
Proof.
  intros Hp H. pose proof H as ((Hin & Hfl & Hfs) & _ & _).
  unfold write_file. rewrite <- (Hfs p Hp), <- Hfl.
  assert (Hgo : alike
    (if fails w1 (OpenW p) then (w1, Raise OSError)
     else if fails w1 (WriteTo p)
          then (set_fs (insert p Truncated) w1, Raise OSError)
          else (set_fs (insert p content) w1, Ok tt))
    (if fails w1 (OpenW p) then (w2, Raise OSError)
     else if fails w1 (WriteTo p)
          then (set_fs (insert p Truncated) w2, Raise OSError)
          else (set_fs (insert p content) w2, Ok tt))).
  { destruct (fails w1 (OpenW p)); [split; [exact H|reflexivity]|].
    destruct (fails w1 (WriteTo p));
      (split; [apply related_insert; assumption|reflexivity]). }
  destruct (fs w1 !! p) as [[]|]; try exact Hgo.
  split; [exact H|reflexivity].
Qed.

Lemma alike_collect_from_history (w1 w2 : World T) :
  related w1 w2 -> alike (collect_from_history w1) (collect_from_history w2).
Proof.
  intros H. pose proof H as ((Hin & Hfl & Hfs) & _ & _).
  assert (Hh : fs w1 !! history_file = fs w2 !! history_file)
    by (apply Hfs; discriminate).
  unfold collect_from_history, bind, path_exists, json_load, lift, print,
    modify, ret. simpl. rewrite <- Hh.
  destruct (fs w1 !! history_file) as [f|] eqn:E; simpl; rewrite <- ?Hh, ?E.
  - destruct f as [|doc| | | |]; try (split; [exact H|reflexivity]).
    destruct (flatten_history doc); split; (exact H || reflexivity).
  - split; [exact H|reflexivity].
Qed.

(** With feedback.json absent or a JSON document, reading the feedback
    returns; what it returns is of no consequence below. *)
Lemma collect_from_feedback_returns (w : World T) :
  feedback_ok w ->
  exists ms j, collect_from_feedback w = (printed ms w, Ok j).
Proof.
  intros [H|[j H]];
    unfold collect_from_feedback, bind, path_exists, json_load, print,
      modify, ret; simpl; rewrite H; simpl.
  - eexists _, _. unfold printed. simpl. rewrite <- app_assoc. reflexivity.
  - rewrite H. eexists _, _. unfold printed. reflexivity.
Qed.

Lemma bind_pass_statement (j : json) (k : unit -> M (World T) unit) w :
  bind (if Js.truthy j then ret tt else ret tt) k w = k tt w.
Proof. destruct (Js.truthy j); reflexivity. Qed.

Lemma alike_create_training_csv (w1 w2 : World T) :
  related w1 w2 -> alike (create_training_csv w1) (create_training_csv w2).
Proof.
  intros H. unfold create_training_csv.
  apply alike_bind.
  { simpl. apply alike_bind; [apply alike_mkdir; [discriminate|exact H]|].
    intros _ w1' w2' H'. split; [exact H'|reflexivity]. }
  intros _ w1' w2' H'. apply alike_bind; [apply alike_collect_from_history, H'|].
  intros rows v1 v2 Hv. pose proof Hv as (_ & Hok1 & Hok2).
  destruct (collect_from_feedback_returns v1 Hok1) as (ms1 & j1 & E1).
  destruct (collect_from_feedback_returns v2 Hok2) as (ms2 & j2 & E2).
  unfold bind at 1 4. rewrite E1, E2.
  rewrite !bind_pass_statement.
  assert (Hp : related (printed ms1 v1) (printed ms2 v2))
    by apply related_printed, Hv.
  destruct rows as [|r rows].
  - apply alike_print, Hp.
  - apply alike_bind; [apply alike_write_file; [discriminate|exact Hp]|].
    intros _ u1 u2 Hu. apply alike_print, Hu.
Qed.

Lemma related_with_feedback (w : World T) fb1 fb2 :
  related (with_feedback fb1 w) (with_feedback fb2 w).
Proof.
  split; [|split].
  - repeat split; try reflexivity. intros p Hp. simpl.
    destruct fb1, fb2;
      rewrite ?lookup_insert_ne, ?lookup_delete_ne by congruence; reflexivity.
  - unfold feedback_ok. simpl. destruct fb1.
    + right. eexists. apply lookup_insert_eq.
    + left. apply lookup_delete_eq.
  - unfold feedback_ok. simpl. destruct fb2.
    + right. eexists. apply lookup_insert_eq.
    + left. apply lookup_delete_eq.
Qed.

End Collector.

(** Two runs from worlds that differ only in the JSON document held by
    data/feedback.json (or in its absence) end with the same result and the
    same file system everywhere but at data/feedback.json itself, in
    particular the same data/training_data.csv. *)
Lemma same_csv_for_json_feedback {T : LibTypes} (w : World T)
  (fb1 fb2 : option json) :
  snd (create_training_csv (with_feedback fb1 w))
  = snd (create_training_csv (with_feedback fb2 w))
  /\ fs (fst (create_training_csv (with_feedback fb1 w))) !! csv_file
     = fs (fst (create_training_csv (with_feedback fb2 w))) !! csv_file
  /\ forall p, p <> feedback_file ->
       fs (fst (create_training_csv (with_feedback fb1 w))) !! p
       = fs (fst (create_training_csv (with_feedback fb2 w))) !! p.
Proof.
  destruct (alike_create_training_csv _ _ (related_with_feedback w fb1 fb2))
    as (((_ & _ & Hfs) & _ & _) & Hr).
  split; [exact Hr|]. split; [apply Hfs; discriminate|exact Hfs].
Qed.

(** A data/feedback.json that does not parse, here a file of no bytes,
    makes [json.load] raise, and the run ends before any CSV is written. *)
Example blank_feedback_aborts :
  snd (create_training_csv world_with_blank_feedback) = Raise JSONDecodeError
  /\ fs (fst (create_training_csv world_with_blank_feedback)) !! csv_file
     = None.
Proof. split; vm_compute; reflexivity. Qed.

(** The label of a flattened record is the truth value of
    mlPrediction.isRealThreat, true when the key or the whole prediction is
    absent; nothing else of the entry is read for it. *)
Lemma flatten_vuln_label (vuln : json) (r : row) :
  flatten_vuln vuln = Ok r ->
  exists ml_pred prediction,
    Js.get vuln "mlPrediction" (JObj []) = Ok ml_pred
    /\ Js.get ml_pred "isRealThreat" (JBool true) = Ok prediction
    /\ r_is_real_threat r = if Js.truthy prediction then 1 else 0.
Proof.
  unfold flatten_vuln. intros H.
  apply rbind_Ok_inv in H as (original & _ & H).
  apply rbind_Ok_inv in H as (ml_pred & Hml & H).
  apply rbind_Ok_inv in H as (prediction & Hp & H).
  repeat (apply rbind_Ok_inv in H as (? & _ & H)).
  injection H as <-. exists ml_pred, prediction. auto.
Qed.

(** C1, on the code. The finding of [history_doc] was predicted a real
    threat and judged a false positive by a human, in the history entry and
    in data/feedback.json alike; whatever data/feedback.json holds, the
    record written has is_real_threat = 1: the label is the prior
    prediction, and feedback never overrides it. *)
Theorem label_ignores_feedback (fb : option json) :
  fs (fst (create_training_csv (with_feedback fb world_with_history)))
    !! csv_file
  = Some (CsvFile fieldnames [history_row])
  /\ flatten_history history_doc = Ok [history_row]
  /\ r_is_real_threat history_row = 1.
Proof.
  split; [|split; reflexivity].
  destruct (alike_create_training_csv _ _
              (related_with_feedback world_with_history fb (Some feedback_doc)))
    as (((_ & _ & Hfs) & _ & _) & _).
  rewrite Hfs by discriminate. vm_compute. reflexivity.
Qed.

(** * Further properties *)

(** ** The builders and the columns they leave alone *)

Lemma changes_only_refl labels df : changes_only labels df df.
Proof. split; auto. Qed.

Lemma changes_only_trans labels df1 df2 df3 :
  changes_only labels df1 df2 -> changes_only labels df2 df3 ->
  changes_only labels df1 df3.
Proof.
  intros [N1 C1] [N2 C2]. split; [congruence|].
  intros l Hl. rewrite C2, C1 by exact Hl. reflexivity.
Qed.

Lemma confined_bind {A B} labels (m : M DataFrame A) (k : A -> M DataFrame B) :
  confined labels m -> (forall a, confined labels (k a)) ->
  confined labels (bind m k).
Proof.
  intros Hm Hk df df' r. unfold bind.
  destruct (m df) as [df1 [a|e]] eqn:E.
  - intros H. eapply changes_only_trans; [eapply Hm, E|eapply Hk, H].
  - intros [= <- <-]. eapply Hm, E.
Qed.

Lemma confined_getitem labels l : confined labels (Pd.getitem l).
Proof.
  intros df df' r. unfold Pd.getitem.
  destruct (columns df !! l); intros [= <- <-]; apply changes_only_refl.
Qed.

Lemma confined_lift {A} labels (x : result A) :
  confined labels (lift (S := DataFrame) x).
Proof. intros df df' r [= <- <-]. apply changes_only_refl. Qed.

Lemma confined_setitem labels l v :
  l ∈ labels -> confined labels (Pd.setitem l v).
Proof.
  intros Hl df df' r [= <- <-]. split; [reflexivity|].
  intros l' Hl'. simpl. apply lookup_insert_ne. intros ->. contradiction.
Qed.

Ltac in_list :=
  repeat first [apply list_elem_of_here | apply list_elem_of_further].

Ltac not_in_list :=
  let H := fresh in
  intros H;
  repeat (apply elem_of_cons in H as [H|H]; [discriminate H|]);
  apply elem_of_nil in H; exact H.

Ltac confined_steps :=
  repeat first
    [ apply confined_bind; [|intros ?]
    | apply confined_getitem
    | apply confined_lift
    | apply confined_setitem; unfold derived_columns; in_list ].

(** X1. Whether it returns or raises, [extract_features] leaves the row
    count and every column other than text, has_cve, has_cwe,
    severity_numeric and is_test_file as they were: the source columns and
    the label are never modified. *)
Theorem extract_features_keeps_sources (df df' : DataFrame) (r : result unit) :
  extract_features df = (df', r) ->
  nrows df' = nrows df
  /\ forall l, l ∉ derived_columns -> columns df' !! l = columns df !! l.
Proof.
  revert df df' r. change (confined derived_columns extract_features).
  unfold extract_features. confined_steps.
Qed.

Lemma extract_features_keeps_sources_witness :
  columns (fst (extract_features frame_without_file)) !! "is_real_threat"
  = Some [Num 1]
  /\ snd (extract_features frame_without_file) = Raise (KeyError "file").
Proof.
  destruct (extract_features_keeps_sources frame_without_file
              (fst (extract_features frame_without_file))
              (Raise (KeyError "file")) ltac:(vm_compute; reflexivity))
    as [_ H].
  split; [|vm_compute; reflexivity].
  rewrite H; [vm_compute; reflexivity|].
  unfold derived_columns. not_in_list.
Defined.

(** ** The test-file flag *)

Lemma append_cons (c : ascii) (a b : string) :
  String c a +:+ b = String c (a +:+ b).
Proof. reflexivity. Qed.

Lemma prefix_spec (p s : string) :
  String.prefix p s = true <-> exists post, s = p +:+ post.
Proof.
  revert s. induction p as [|a p IH]; intros s; simpl.
  - split; [intros _; exists s; reflexivity|destruct s; reflexivity].
  - destruct s as [|b s]; simpl.
    + split; [discriminate|intros [post H]; discriminate H].
    + destruct (ascii_dec a b) as [->|Hab].
      * rewrite IH. split; intros [post H]; exists post.
        -- rewrite append_cons. f_equal. exact H.
        -- rewrite append_cons in H. injection H as H. exact H.
      * split; [discriminate|]. intros [post H]. rewrite append_cons in H.
        injection H as H _. congruence.
Qed.

(** [Py.contains] finds exactly the substrings. *)
Lemma contains_spec (pat s : string) :
  Py.contains pat s = true <-> exists pre post, s = pre +:+ pat +:+ post.
Proof.
  induction s as [|c s IH].
  - change (Py.contains pat EmptyString)
      with (String.prefix pat EmptyString || false).
    rewrite orb_false_r, prefix_spec. split.
    + intros [post H]. exists EmptyString, post. exact H.
    + intros (pre & post & H). destruct pre; [exists post; exact H|].
      discriminate H.
  - change (Py.contains pat (String c s))
      with (String.prefix pat (String c s) || Py.contains pat s).
    rewrite orb_true_iff, prefix_spec, IH. split.
    + intros [[post H]|(pre & post & H)].
      * exists EmptyString, post. exact H.
      * exists (String c pre), post. rewrite append_cons. f_equal. exact H.
    + intros (pre & post & H). destruct pre as [|c' pre].
      * left. exists post. exact H.
      * right. rewrite append_cons in H. injection H as _ H.
        exists pre, post. exact H.
Qed.

Lemma search_test_spec_example_spec (x : string) :
  Py.search_test_spec_example x = true
  <-> exists word pre post,
        word ∈ test_words /\ Py.lower x = pre +:+ word +:+ post.
Proof.
  unfold Py.search_test_spec_example, test_words. cbv zeta.
  rewrite !orb_true_iff, !contains_spec. split.
  - intros [[(pre & post & H)|(pre & post & H)]|(pre & post & H)];
      eexists _, pre, post; (split; [|exact H]); in_list.
  - intros (word & pre & post & Hw & H).
    repeat (apply elem_of_cons in Hw as [->|Hw]); eauto 6.
    apply elem_of_nil in Hw. contradiction.
Qed.

(** X2. For every record of a table the feature builder returns,
    is_test_file is 0 or 1; it is 1 whenever the file cell is a text in
    which "test", "spec" or "example" occurs somewhere, letter case
    ignored, and 0 whenever the file cell is missing or not a text. *)
Theorem is_test_file_flag (df df' : DataFrame) (file : Series) (i : nat)
  (c : cell) :
  extract_features df = (df', Ok tt) ->
  columns df !! "file" = Some file ->
  file !! i = Some c ->
  exists (out : Series) (v : Z),
    columns df' !! "is_test_file" = Some out
    /\ out !! i = Some (Num v)
    /\ (v = 0 \/ v = 1)
    /\ ((exists x word pre post,
           c = Str x /\ word ∈ test_words
           /\ Py.lower x = pre +:+ word +:+ post) -> v = 1)
    /\ (Pd.is_str c = false -> v = 0).
Proof.
  intros H Hfile Hi.
  apply extract_features_Ok_inv in H
    as (name & description & message & cve & cwe & severity & file' & text
        & is_test & _ & _ & _ & _ & _ & _ & Hfile' & _ & Htest & ->).
  rewrite Hfile in Hfile'. injection Hfile' as <-.
  unfold Pd.str_contains_int in Htest.
  apply rbind_Ok_inv in Htest as (_ & _ & [= <-]).
  eexists _, (match c with
              | Str x => if Py.search_test_spec_example x then 1 else 0
              | _ => 0
              end).
  split; [apply with_features_lookup_is_test|].
  split; [rewrite lookup_map, Hi; destruct c as [|x|z]; simpl; try reflexivity;
          destruct (Py.search_test_spec_example x); reflexivity|].
  destruct c as [|x|z].
  - split; [auto|]. split; [|reflexivity].
    intros (x & word & pre & post & Hc & _). discriminate Hc.
  - destruct (Py.search_test_spec_example x) eqn:E.
    + split; [auto|]. split; [reflexivity|discriminate].
    + split; [auto|]. split; [|reflexivity].
      intros (x' & word & pre & post & [= <-] & Hw & Hx).
      assert (Py.search_test_spec_example x = true) as E'
        by (apply search_test_spec_example_spec; eauto).
      congruence.
  - split; [auto|]. split; [|reflexivity].
    intros (x & word & pre & post & Hc & _). discriminate Hc.
Qed.

Lemma is_test_file_flag_witness :
  exists out : Series,
    columns (fst (extract_features test_file_frame)) !! "is_test_file"
      = Some out
    /\ out !! 0%nat = Some (Num 1).
Proof.
  destruct (is_test_file_flag test_file_frame
              (fst (extract_features test_file_frame))
              [Str "src/db_Test.py"] 0 (Str "src/db_Test.py")
              ltac:(vm_compute; reflexivity) ltac:(vm_compute; reflexivity)
              eq_refl)
    as (out & v & Hout & Hv & _ & Hone & _).
  exists out. split; [exact Hout|].
  assert (v = 1) as ->; [|exact Hv].
  apply Hone. exists "src/db_Test.py", "test", "src/db_", ".py".
  split; [reflexivity|]. split; [unfold test_words; in_list|reflexivity].
Defined.

(** ** How the feature builder fails *)

Lemma mapM_Raise {A B} (f : A -> result B) l e :
  mapM f l = Raise e -> exists x, x ∈ l /\ f x = Raise e.
Proof.
  induction l as [|a l IH]; simpl; [discriminate|].
  destruct (f a) as [b|e'] eqn:Hfa; simpl.
  - destruct (mapM f l) as [bs|e'']; simpl; [discriminate|].
    intros [= <-]. destruct (IH eq_refl) as (x & Hx & Hfx).
    exists x. split; [apply list_elem_of_further, Hx|exact Hfx].
  - intros [= <-]. exists a. split; [apply list_elem_of_here|exact Hfa].
Qed.

Lemma add_cell_Raise a b e :
  Pd.add_cell a b = Raise e ->
  e = TypeError /\ (Pd.is_str a = false \/ Pd.is_str b = false).
Proof.
  destruct a, b; simpl; intros [= <-]; auto; discriminate.
Qed.

Lemma elem_of_combine {A B} (l1 : list A) (l2 : list B) a b :
  (a, b) ∈ combine l1 l2 -> a ∈ l1 /\ b ∈ l2.
Proof.
  revert l2. induction l1 as [|x l1 IH]; intros [|y l2] H; simpl in H;
    try (apply elem_of_nil in H; contradiction).
  apply elem_of_cons in H as [[= -> ->]|H].
  - split; apply list_elem_of_here.
  - destruct (IH _ H). split; apply list_elem_of_further; assumption.
Qed.

Lemma elem_of_fillna_not_str s c :
  c ∈ Pd.fillna (Str EmptyString) s -> Pd.is_str c = false ->
  c ∈ s /\ is_text c = false.
Proof.
  unfold Pd.fillna. intros H Hc. apply list_elem_of_In, in_map_iff in H
    as (c0 & <- & Hin).
  apply list_elem_of_In in Hin. destruct c0; simpl in *; try discriminate.
  auto.
Qed.

Lemma all_str_no_culprit s c :
  Forall (fun c => Pd.is_str c = true) s -> c ∈ s -> Pd.is_str c = false ->
  False.
Proof.
  intros Hs Hc Hn. rewrite Forall_forall in Hs. specialize (Hs c Hc).
  congruence.
Qed.

Lemma add_lit_Ok_all_str s lit out :
  Pd.add_lit s lit = Ok out -> Forall (fun c => Pd.is_str c = true) out.
Proof.
  apply mapM_Ok_Forall. intros x y. apply add_cell_is_str.
Qed.

Lemma add_Ok_all_str s1 s2 out :
  Pd.add s1 s2 = Ok out -> Forall (fun c => Pd.is_str c = true) out.
Proof.
  apply mapM_Ok_Forall. intros x y. apply add_cell_is_str.
Qed.

Lemma add_lit_fillna_Raise s lit e :
  Pd.add_lit (Pd.fillna (Str EmptyString) s) lit = Raise e ->
  e = TypeError /\ exists c, c ∈ s /\ is_text c = false.
Proof.
  intros H. apply mapM_Raise in H as (c & Hc & H).
  apply add_cell_Raise in H as [-> [H|H]]; [|discriminate H].
  split; [reflexivity|]. exists c. apply elem_of_fillna_not_str; assumption.
Qed.

Lemma add_fillna_Raise s1 s2 e :
  Forall (fun c => Pd.is_str c = true) s1 ->
  Pd.add s1 (Pd.fillna (Str EmptyString) s2) = Raise e ->
  e = TypeError /\ exists c, c ∈ s2 /\ is_text c = false.
Proof.
  intros Hs1 H. apply mapM_Raise in H as ([a b] & Hab & H).
  apply elem_of_combine in Hab as [Ha Hb]. simpl in H.
  apply add_cell_Raise in H as [-> [H|H]].
  - destruct (all_str_no_culprit _ _ Hs1 Ha H).
  - split; [reflexivity|]. exists b.
    apply elem_of_fillna_not_str; assumption.
Qed.

Lemma add_lit_all_str_Raise s lit e :
  Forall (fun c => Pd.is_str c = true) s -> Pd.add_lit s lit = Raise e -> False.
Proof.
  intros Hs H. apply mapM_Raise in H as (c & Hc & H).
  apply add_cell_Raise in H as [_ [H|H]]; [|discriminate H].
  exact (all_str_no_culprit _ _ Hs Hc H).
Qed.

Lemma str_contains_int_Raise file e :
  Pd.str_contains_int file = Raise e ->
  e = AttributeError /\ file <> []
  /\ Forall (fun c => Pd.is_str c = false) file.
Proof.
  unfold Pd.str_contains_int, Pd.str_accessor.
  destruct file as [|c file]; [discriminate|].
  destruct (existsb Pd.is_str (c :: file)) eqn:E; [discriminate|].
  simpl. intros [= <-]. split; [reflexivity|]. split; [discriminate|].
  rewrite Forall_forall. intros x Hx.
  destruct (Pd.is_str x) eqn:Ex; [|reflexivity].
  assert (existsb Pd.is_str (c :: file) = true) as E'.
  { apply existsb_exists. exists x. split; [apply list_elem_of_In, Hx|exact Ex]. }
  congruence.
Qed.

Lemma bind_getitem_Raise {B} label (k : Series -> M DataFrame B) df df' e :
  bind (Pd.getitem label) k df = (df', Raise e) ->
  (columns df !! label = None /\ e = KeyError label)
  \/ exists s, columns df !! label = Some s /\ k s df = (df', Raise e).
Proof.
  unfold bind, Pd.getitem. destruct (columns df !! label) as [s|].
  - right. eauto.
  - intros [= <- <-]. left. auto.
Qed.

Lemma bind_lift_Raise {S A B} (x : result A) (k : A -> M S B) s s' e :
  bind (lift x) k s = (s', Raise e) ->
  x = Raise e \/ exists a, x = Ok a /\ k a s = (s', Raise e).
Proof.
  unfold bind, lift. destruct x as [a|e'].
  - right. eauto.
  - intros [= <- <-]. left. reflexivity.
Qed.

(** X3. [extract_features] raises in three ways only: KeyError for one of
    its seven source columns that the table lacks; TypeError when name,
    description or message holds a number; AttributeError when the file
    column has records and none of them is a text. *)
Theorem extract_features_failure_modes (df df' : DataFrame) (e : exn) :
  extract_features df = (df', Raise e) ->
  (exists l, e = KeyError l /\ l ∈ source_columns /\ columns df !! l = None)
  \/ (e = TypeError
      /\ exists l s c, l ∈ text_columns /\ columns df !! l = Some s
                       /\ c ∈ s /\ is_text c = false)
  \/ (e = AttributeError
      /\ exists file, columns df !! "file" = Some file /\ file <> []
                      /\ Forall (fun c => Pd.is_str c = false) file).
Proof.
  unfold extract_features. intros H.
  apply bind_getitem_Raise in H as [[Hn ->]|(name & Hname & H)];
    [left; exists "name"; repeat split; [unfold source_columns; in_list|exact Hn]|].
  apply bind_lift_Raise in H as [H|(n1 & H1 & H)].
  { apply add_lit_fillna_Raise in H as [-> (c & Hc & Hnum)].
    right. left. split; [reflexivity|]. exists "name", name, c.
    repeat split; try assumption. unfold text_columns. in_list. }
  apply bind_getitem_Raise in H as [[Hn ->]|(description & Hdesc & H)];
    [left; exists "description"; repeat split;
     [unfold source_columns; in_list|exact Hn]|].
  apply bind_lift_Raise in H as [H|(n2 & H2 & H)].
  { apply add_fillna_Raise in H as [-> (c & Hc & Hnum)];
      [|eapply add_lit_Ok_all_str, H1].
    right. left. split; [reflexivity|]. exists "description", description, c.
    repeat split; try assumption. unfold text_columns. in_list. }
  apply bind_lift_Raise in H as [H|(n3 & H3 & H)].
  { destruct (add_lit_all_str_Raise _ _ _ (add_Ok_all_str _ _ _ H2) H). }
  apply bind_getitem_Raise in H as [[Hn ->]|(message & Hmsg & H)];
    [left; exists "message"; repeat split;
     [unfold source_columns; in_list|exact Hn]|].
  apply bind_lift_Raise in H as [H|(text & H4 & H)].
  { apply add_fillna_Raise in H as [-> (c & Hc & Hnum)];
      [|eapply add_lit_Ok_all_str, H3].
    right. left. split; [reflexivity|]. exists "message", message, c.
    repeat split; try assumption. unfold text_columns. in_list. }
  rewrite bind_setitem in H.
  apply bind_getitem_Raise in H as [[Hn ->]|(cve & Hcve & H)];
    [left; exists "cve"; repeat split; [unfold source_columns; in_list|];
     revert Hn; simpl; lookup_past_inserts; auto|].
  rewrite bind_setitem in H.
  apply bind_getitem_Raise in H as [[Hn ->]|(cwe & Hcwe & H)];
    [left; exists "cwe"; repeat split; [unfold source_columns; in_list|];
     revert Hn; simpl; lookup_past_inserts; auto|].
  rewrite bind_setitem in H.
  apply bind_getitem_Raise in H as [[Hn ->]|(severity & Hsev & H)];
    [left; exists "severity"; repeat split; [unfold source_columns; in_list|];
     revert Hn; simpl; lookup_past_inserts; auto|].
  rewrite bind_setitem in H.
  apply bind_getitem_Raise in H as [[Hn ->]|(file & Hfile & H)];
    [left; exists "file"; repeat split; [unfold source_columns; in_list|];
     revert Hn; simpl; lookup_past_inserts; auto|].
  apply bind_lift_Raise in H as [H|(is_test & _ & H)]; [|discriminate H].
  apply str_contains_int_Raise in H as (-> & Hne & Hall).
  right. right. split; [reflexivity|]. exists file.
  repeat split; try assumption.
  revert Hfile. simpl. lookup_past_inserts. auto.
Qed.

Lemma extract_features_failure_modes_witness :
  snd (extract_features frame_without_file) = Raise (KeyError "file")
  /\ columns frame_without_file !! "file" = None.
Proof.
  destruct (extract_features_failure_modes frame_without_file
              (fst (extract_features frame_without_file)) (KeyError "file")
              ltac:(vm_compute; reflexivity))
    as [(l & [= <-] & _ & Hl)|[[He _]|[He _]]]; try discriminate He.
  split; [vm_compute; reflexivity|exact Hl].
Defined.

(** X4. The feature builder is not all-or-nothing: when the first six
    source columns are usable and the file column is missing, or has
    records none of which is a text, the call raises (KeyError or
    AttributeError) after having written text, has_cve, has_cwe and
    severity_numeric into the table; only is_test_file is left as it was. *)
Theorem extract_features_half_done (df : DataFrame)
  (name description message cve cwe severity text : Series) :
  columns df !! "name" = Some name ->
  columns df !! "description" = Some description ->
  columns df !! "message" = Some message ->
  columns df !! "cve" = Some cve ->
  columns df !! "cwe" = Some cwe ->
  columns df !! "severity" = Some severity ->
  joined_text " " name description message = Ok text ->
  (columns df !! "file" = None
   \/ exists file, columns df !! "file" = Some file
                   /\ Pd.str_accessor file = Raise AttributeError) ->
  exists df' e,
    extract_features df = (df', Raise e)
    /\ (e = KeyError "file" \/ e = AttributeError)
    /\ columns df' !! "text" = Some text
    /\ columns df' !! "has_cve" = Some (Pd.notna_int cve)
    /\ columns df' !! "has_cwe" = Some (Pd.notna_int cwe)
    /\ columns df' !! "severity_numeric"
       = Some (Pd.fillna (Num 2) (Pd.map_dict severity_map severity))
    /\ columns df' !! "is_test_file" = columns df !! "is_test_file".
Proof.
  intros Hname Hdesc Hmsg Hcve Hcwe Hsev Hjoin Hfile.
  unfold joined_text in Hjoin.
  apply rbind_Ok_inv in Hjoin as (n1 & H1 & Hjoin).
  apply rbind_Ok_inv in Hjoin as (n2 & H2 & Hjoin).
  apply rbind_Ok_inv in Hjoin as (n3 & H3 & H4).
  set (half := mkDF (nrows df)
    (<["severity_numeric" :=
         Pd.fillna (Num 2) (Pd.map_dict severity_map severity)]>
     (<["has_cwe" := Pd.notna_int cwe]>
      (<["has_cve" := Pd.notna_int cve]>
       (<["text" := text]> (columns df)))))).
  assert (Hrun : extract_features df
    = bind (Pd.getitem "file") (fun file =>
        bind (lift (Pd.str_contains_int file)) (fun is_test =>
          Pd.setitem "is_test_file" is_test)) half).
  { unfold extract_features.
    rewrite (bind_getitem_Some _ _ _ _ Hname), (bind_lift_Ok _ _ _ _ H1).
    rewrite (bind_getitem_Some _ _ _ _ Hdesc), (bind_lift_Ok _ _ _ _ H2).
    rewrite (bind_lift_Ok _ _ _ _ H3).
    rewrite (bind_getitem_Some _ _ _ _ Hmsg), (bind_lift_Ok _ _ _ _ H4).
    rewrite bind_setitem.
    rewrite (bind_getitem_Some _ _ _ cve)
      by (simpl; lookup_past_inserts; exact Hcve).
    rewrite bind_setitem.
    rewrite (bind_getitem_Some _ _ _ cwe)
      by (simpl; lookup_past_inserts; exact Hcwe).
    rewrite bind_setitem.
    rewrite (bind_getitem_Some _ _ _ severity)
      by (simpl; lookup_past_inserts; exact Hsev).
    rewrite bind_setitem. reflexivity. }
  assert (Hhalf : forall l, l <> "text" -> l <> "has_cve" -> l <> "has_cwe" ->
            l <> "severity_numeric" -> columns half !! l = columns df !! l).
  { intros l ? ? ? ?. unfold half. simpl.
    repeat (rewrite lookup_insert_ne by congruence). reflexivity. }
  assert (Hcols : columns half !! "text" = Some text
    /\ columns half !! "has_cve" = Some (Pd.notna_int cve)
    /\ columns half !! "has_cwe" = Some (Pd.notna_int cwe)
    /\ columns half !! "severity_numeric"
       = Some (Pd.fillna (Num 2) (Pd.map_dict severity_map severity))
    /\ columns half !! "is_test_file" = columns df !! "is_test_file").
  { unfold half. simpl. repeat split; lookup_past_inserts;
      try apply lookup_insert_eq. reflexivity. }
  destruct Hfile as [Hnone|(file & Hfile & Hacc)].
  - exists half, (KeyError "file"). split; [|split; [auto|exact Hcols]].
    rewrite Hrun. unfold bind, Pd.getitem.
    rewrite Hhalf by discriminate. rewrite Hnone. reflexivity.
  - exists half, AttributeError. split; [|split; [auto|exact Hcols]].
    rewrite Hrun. unfold bind at 1. unfold Pd.getitem.
    rewrite Hhalf by discriminate. rewrite Hfile.
    unfold bind, lift, Pd.str_contains_int. rewrite Hacc. reflexivity.
Qed.

Lemma extract_features_half_done_witness :
  exists df',
    extract_features frame_with_blank_file = (df', Raise AttributeError)
    /\ columns df' !! "has_cve" = Some [Num 1]
    /\ columns df' !! "is_test_file" = None.
Proof.
  destruct (extract_features_half_done frame_with_blank_file
              [Str "SQL Injection"] [Str "user input reaches a query"] [NaN]
              [Str "CVE-2021-0001"] [NaN] [Str "HIGH"]
              [Str "SQL Injection user input reaches a query "]
              ltac:(vm_compute; reflexivity) ltac:(vm_compute; reflexivity)
              ltac:(vm_compute; reflexivity) ltac:(vm_compute; reflexivity)
              ltac:(vm_compute; reflexivity) ltac:(vm_compute; reflexivity)
              ltac:(vm_compute; reflexivity)
              ltac:(right; exists [NaN]; split; vm_compute; reflexivity))
    as (df' & e & Hrun & _ & _ & Hcve & _ & _ & Htest).
  exists df'. split.
  - rewrite Hrun. f_equal.
    assert (E : snd (extract_features frame_with_blank_file) = Raise e)
      by (rewrite Hrun; reflexivity).
    vm_compute in E. injection E as <-. reflexivity.
  - split; [exact Hcve|]. rewrite Htest. vm_compute. reflexivity.
Defined.

(** ** When the feature builder returns *)

Lemma add_cell_Ok_both a b c :
  Pd.add_cell a b = Ok c -> Pd.is_str a = true /\ Pd.is_str b = true.
Proof. destruct a, b; simpl; try discriminate. auto. Qed.

Lemma fillna_str_is_text c :
  Pd.is_str (match c with NaN => Str EmptyString | _ => c end) = true ->
  is_text c = true.
Proof. destruct c; simpl; auto. Qed.

Lemma length_fillna v s : length (Pd.fillna v s) = length s.
Proof. unfold Pd.fillna. rewrite length_map. reflexivity. Qed.

Lemma length_add_lit s lit out :
  Pd.add_lit s lit = Ok out -> length out = length s.
Proof. apply mapM_Ok_length. Qed.

Lemma length_add s1 s2 out :
  Pd.add s1 s2 = Ok out -> length out = Nat.min (length s1) (length s2).
Proof.
  intros H. apply mapM_Ok_length in H. rewrite H. apply length_combine.
Qed.

Lemma add_lit_fillna_Ok_text s lit out :
  Pd.add_lit (Pd.fillna (Str EmptyString) s) lit = Ok out ->
  Forall (fun c => is_text c = true) s.
Proof.
  intros H. apply Forall_lookup. intros i c Hi.
  destruct (mapM_Ok_lookup _ _ _ _ _ H (lookup_fillna (Str EmptyString) _ _ _ Hi))
    as (y & Hy & _).
  apply add_cell_Ok_both in Hy as [Hy _]. apply fillna_str_is_text, Hy.
Qed.

Lemma add_fillna_Ok_text s1 s2 out :
  Pd.add s1 (Pd.fillna (Str EmptyString) s2) = Ok out ->
  length s1 = length s2 ->
  Forall (fun c => is_text c = true) s2.
Proof.
  intros H Hlen. apply Forall_lookup. intros i c Hi.
  destruct (lookup_lt_is_Some_2 s1 i) as [a Ha];
    [rewrite Hlen; eapply lookup_lt_Some, Hi|].
  pose proof (lookup_combine _ _ _ _ _ Ha
                (lookup_fillna (Str EmptyString) _ _ _ Hi)) as Hc.
  destruct (mapM_Ok_lookup _ _ _ _ _ H Hc) as (y & Hy & _).
  apply add_cell_Ok_both in Hy as [_ Hy]. apply fillna_str_is_text, Hy.
Qed.

(** With columns of one length, a join that does not raise had three text
    columns, and is as long as they are. *)
Lemma joined_text_Ok_text sep name description message text :
  joined_text sep name description message = Ok text ->
  length description = length name -> length message = length name ->
  Forall (fun c => is_text c = true) name
  /\ Forall (fun c => is_text c = true) description
  /\ Forall (fun c => is_text c = true) message
  /\ length text = length name.
Proof.
  unfold joined_text. intros H Hd Hm.
  apply rbind_Ok_inv in H as (n1 & H1 & H).
  apply rbind_Ok_inv in H as (n2 & H2 & H).
  apply rbind_Ok_inv in H as (n3 & H3 & H4).
  pose proof (length_add_lit _ _ _ H1) as L1. rewrite length_fillna in L1.
  pose proof (length_add _ _ _ H2) as L2. rewrite length_fillna in L2.
  pose proof (length_add_lit _ _ _ H3) as L3.
  pose proof (length_add _ _ _ H4) as L4. rewrite length_fillna in L4.
  split; [eapply add_lit_fillna_Ok_text, H1|].
  split; [eapply add_fillna_Ok_text; [exact H2|lia]|].
  split; [eapply add_fillna_Ok_text; [exact H4|lia]|lia].
Qed.

Lemma str_accessor_Ok file :
  Pd.str_accessor file = Ok tt <->
  file = [] \/ Exists (fun c => Pd.is_str c = true) file.
Proof.
  unfold Pd.str_accessor. destruct file as [|c file]; [split; auto|].
  destruct (existsb Pd.is_str (c :: file)) eqn:E.
  - split; [|reflexivity]. intros _. right.
    apply existsb_exists in E as (x & Hx & Ex).
    apply Exists_exists. exists x. split; [apply list_elem_of_In, Hx|exact Ex].
  - split; [discriminate|]. intros [H|H]; [discriminate H|].
    apply Exists_exists in H as (x & Hx & Ex).
    assert (existsb Pd.is_str (c :: file) = true) as E'.
    { apply existsb_exists. exists x. split; [apply list_elem_of_In, Hx|exact Ex]. }
    congruence.
Qed.

Lemma str_contains_int_Ok file out :
  Pd.str_contains_int file = Ok out ->
  Pd.str_accessor file = Ok tt /\ length out = length file.
Proof.
  unfold Pd.str_contains_int. intros H.
  apply rbind_Ok_inv in H as ([] & Hacc & [= <-]).
  split; [exact Hacc|apply length_map].
Qed.

(** X5. On a table whose columns all have one cell per record,
    [extract_features] returns exactly when the seven source columns are
    present, name, description and message hold no number, and the file
    column is empty or holds at least one text. *)
Theorem extract_features_returns_iff (df : DataFrame) :
  uniform df ->
  (exists df', extract_features df = (df', Ok tt)) <-> features_ready df.
Proof.
  intros Hu. split.
  - intros [df' H].
    apply extract_features_Ok_inv in H
      as (name & description & message & cve & cwe & severity & file & text
          & is_test & Hn & Hd & Hm & Hcve & Hcwe & Hsev & Hfile & Hjoin
          & Htest & _).
    destruct (joined_text_Ok_text _ _ _ _ _ Hjoin) as (Tn & Td & Tm & _);
      [rewrite (Hu _ _ Hd), (Hu _ _ Hn); reflexivity
      |rewrite (Hu _ _ Hm), (Hu _ _ Hn); reflexivity|].
    split; [|split].
    + unfold source_columns. intros l Hl.
      repeat (apply elem_of_cons in Hl as [->|Hl]); eauto.
      apply elem_of_nil in Hl. contradiction.
    + unfold text_columns. intros l s Hl Hs.
      repeat (apply elem_of_cons in Hl as [->|Hl]);
        try (apply elem_of_nil in Hl; contradiction); congruence.
    + intros file' Hfile'. rewrite Hfile in Hfile'. injection Hfile' as <-.
      apply str_accessor_Ok. apply str_contains_int_Ok in Htest as [Hacc _].
      exact Hacc.
  - intros (Hsrc & Htxt & Hacc).
    assert (Hin : forall l, l ∈ source_columns -> exists s, columns df !! l = Some s).
    { intros l Hl. destruct (Hsrc l Hl) as [s Hs]. eauto. }
    destruct (Hin "name") as [name Hn]; [unfold source_columns; in_list|].
    destruct (Hin "description") as [description Hd];
      [unfold source_columns; in_list|].
    destruct (Hin "message") as [message Hm]; [unfold source_columns; in_list|].
    destruct (Hin "cve") as [cve Hcve]; [unfold source_columns; in_list|].
    destruct (Hin "cwe") as [cwe Hcwe]; [unfold source_columns; in_list|].
    destruct (Hin "severity") as [severity Hsev];
      [unfold source_columns; in_list|].
    destruct (Hin "file") as [file Hfile]; [unfold source_columns; in_list|].
    assert (Tn : Forall (fun c => is_text c = true) name)
      by (apply (Htxt "name"); [unfold text_columns; in_list|exact Hn]).
    assert (Td : Forall (fun c => is_text c = true) description)
      by (apply (Htxt "description"); [unfold text_columns; in_list|exact Hd]).
    assert (Tm : Forall (fun c => is_text c = true) message)
      by (apply (Htxt "message"); [unfold text_columns; in_list|exact Hm]).
    destruct (joined_text_total " " name description message Tn Td Tm)
      as (text & Hjoin & _).
    eexists. eapply extract_features_Ok_intro; try eassumption.
    unfold Pd.str_contains_int.
    rewrite (proj2 (str_accessor_Ok file) (Hacc file Hfile)). reflexivity.
Qed.

Lemma uniform_one_row name description message cve cwe severity file label :
  uniform (one_row name description message cve cwe severity file label).
Proof.
  intros l s. unfold one_row. simpl.
  repeat (rewrite lookup_insert; case_decide;
          [intros [= <-]; reflexivity|]).
  rewrite lookup_empty. discriminate.
Qed.

Lemma extract_features_returns_iff_witness :
  features_ready sample_frame.
Proof.
  apply (extract_features_returns_iff sample_frame
           (uniform_one_row _ _ _ _ _ _ _ _)).
  eexists. vm_compute. reflexivity.
Defined.

(** X6. A successful [extract_features] keeps the table rectangular: if
    every column had one cell per record before, so has every column
    after, the five new ones included. *)
Theorem extract_features_keeps_uniform (df df' : DataFrame) :
  uniform df ->
  extract_features df = (df', Ok tt) ->
  uniform df'.
Proof.
  intros Hu H.
  apply extract_features_Ok_inv in H
    as (name & description & message & cve & cwe & severity & file & text
        & is_test & Hn & Hd & Hm & Hcve & Hcwe & Hsev & Hfile & Hjoin
        & Htest & ->).
  destruct (joined_text_Ok_text _ _ _ _ _ Hjoin) as (_ & _ & _ & Ltext);
    [rewrite (Hu _ _ Hd), (Hu _ _ Hn); reflexivity
    |rewrite (Hu _ _ Hm), (Hu _ _ Hn); reflexivity|].
  apply str_contains_int_Ok in Htest as [_ Ltest].
  intros l s. unfold with_features. simpl.
  rewrite lookup_insert. case_decide as E1.
  { intros [= <-]. rewrite Ltest. apply (Hu _ _ Hfile). }
  rewrite lookup_insert. case_decide as E2.
  { intros [= <-]. rewrite length_fillna. unfold Pd.map_dict.
    rewrite length_map. apply (Hu _ _ Hsev). }
  rewrite lookup_insert. case_decide as E3.
  { intros [= <-]. unfold Pd.notna_int. rewrite length_map.
    apply (Hu _ _ Hcwe). }
  rewrite lookup_insert. case_decide as E4.
  { intros [= <-]. unfold Pd.notna_int. rewrite length_map.
    apply (Hu _ _ Hcve). }
  rewrite lookup_insert. case_decide as E5.
  { intros [= <-]. rewrite Ltext. apply (Hu _ _ Hn). }
  apply Hu.
Qed.

Lemma extract_features_keeps_uniform_witness :
  uniform (fst (extract_features sample_frame)).
Proof.
  apply (extract_features_keeps_uniform sample_frame
           (fst (extract_features sample_frame))
           (uniform_one_row _ _ _ _ _ _ _ _)).
  vm_compute. reflexivity.
Defined.

(** ** The transformer's text preparation *)

Lemma slice_to_short n s :
  (String.length s <= n)%nat -> Py.slice_to n s = s.
Proof.
  revert s. induction n as [|n IH]; intros [|c s] H; simpl in *;
    try reflexivity; try lia.
  f_equal. apply IH. lia.
Qed.

Lemma slice_to_prefix n s : exists rest, s = Py.slice_to n s +:+ rest.
Proof.
  revert s. induction n as [|n IH]; intros s.
  - exists s. destruct s; reflexivity.
  - destruct s as [|c s]; [exists EmptyString; reflexivity|].
    destruct (IH s) as [rest Hrest]. exists rest. simpl.
    rewrite append_cons. f_equal. exact Hrest.
Qed.

Lemma prepare_data_Ok_inv df df' :
  prepare_data df = (df', Ok tt) ->
  exists name description message text,
    columns df !! "name" = Some name /\
    columns df !! "description" = Some description /\
    columns df !! "message" = Some message /\
    joined_text " [SEP] " name description message = Ok text /\
    Pd.str_accessor text = Ok tt /\
    df' = mkDF (nrows df)
            (<["text" := map (fun c => match c with
                                       | Str x => Str (Py.slice_to 500 x)
                                       | _ => NaN
                                       end) text]> (columns df)).
Proof.
  unfold prepare_data. intros H.
  apply bind_getitem_inv in H as (name & Hname & H).
  apply bind_lift_inv in H as (n1 & H1 & H).
  apply bind_getitem_inv in H as (description & Hdesc & H).
  apply bind_lift_inv in H as (n2 & H2 & H).
  apply bind_lift_inv in H as (n3 & H3 & H).
  apply bind_getitem_inv in H as (message & Hmsg & H).
  apply bind_lift_inv in H as (text & H4 & H).
  rewrite bind_setitem in H.
  apply bind_getitem_inv in H as (text' & Htext' & H).
  simpl in Htext'. rewrite lookup_insert_eq in Htext'. injection Htext' as <-.
  apply bind_lift_inv in H as (sliced & Hs & H).
  unfold Pd.str_slice_to in Hs.
  apply rbind_Ok_inv in Hs as ([] & Hacc & [= <-]).
  exists name, description, message, text.
  repeat split; try assumption.
  - unfold joined_text. rewrite H1. simpl. rewrite H2. simpl. rewrite H3.
    simpl. exact H4.
  - unfold Pd.setitem, modify in H. simpl in H. injection H as <-.
    rewrite insert_insert_eq. reflexivity.
Qed.

(** X7. In a table [prepare_data] returns, the text of every record is a
    prefix of name, description and message joined by " [SEP] ": the whole
    join when that has at most 500 characters, and exactly its first 500
    characters when it is longer. *)
Theorem prepare_data_cut_at_500 (df df' : DataFrame)
  (name description message : Series) (i : nat) (a b c : cell) :
  prepare_data df = (df', Ok tt) ->
  columns df !! "name" = Some name ->
  columns df !! "description" = Some description ->
  columns df !! "message" = Some message ->
  name !! i = Some a -> description !! i = Some b -> message !! i = Some c ->
  let joined :=
    (((txt a +:+ " [SEP] ") +:+ txt b) +:+ " [SEP] ") +:+ txt c in
  exists (text : Series) (s : string),
    columns df' !! "text" = Some text
    /\ text !! i = Some (Str s)
    /\ (exists rest, joined = s +:+ rest)
    /\ ((String.length joined <= 500)%nat -> s = joined)
    /\ ((500 < String.length joined)%nat -> String.length s = 500%nat).
Proof.
  intros H Hn Hd Hm Ha Hb Hc joined.
  apply prepare_data_Ok_inv in H
    as (name' & description' & message' & text & Hn' & Hd' & Hm' & Hjoin & _
        & ->).
  rewrite Hn in Hn'. injection Hn' as <-.
  rewrite Hd in Hd'. injection Hd' as <-.
  rewrite Hm in Hm'. injection Hm' as <-.
  pose proof (joined_text_lookup _ _ _ _ _ _ _ _ _ Hjoin Ha Hb Hc) as E.
  eexists _, (Py.slice_to 500 joined).
  split; [simpl; apply lookup_insert_eq|].
  split; [rewrite lookup_map, E; reflexivity|].
  split; [apply slice_to_prefix|].
  split; [apply slice_to_short|].
  intros Hlong. rewrite length_slice_to. lia.
Qed.

Lemma prepare_data_cut_at_500_witness :
  exists (text : Series) (s : string),
    columns (fst (prepare_data sample_frame)) !! "text" = Some text
    /\ text !! 0%nat = Some (Str s)
    /\ s = "SQL Injection [SEP] user input reaches a query [SEP] ".
Proof.
  destruct (prepare_data_cut_at_500 sample_frame
              (fst (prepare_data sample_frame))
              [Str "SQL Injection"] [Str "user input reaches a query"] [NaN]
              0 (Str "SQL Injection") (Str "user input reaches a query") NaN
              ltac:(vm_compute; reflexivity) ltac:(vm_compute; reflexivity)
              ltac:(vm_compute; reflexivity) ltac:(vm_compute; reflexivity)
              eq_refl eq_refl eq_refl)
    as (text & s & Htext & Hs & _ & Hshort & _).
  exists text, s. split; [exact Htext|]. split; [exact Hs|].
  apply Hshort. vm_compute. lia.
Defined.

Lemma confined_prepare_data : confined ["text"] prepare_data.
Proof.
  unfold prepare_data.
  repeat first
    [ apply confined_bind; [|intros ?]
    | apply confined_getitem
    | apply confined_lift
    | apply confined_setitem; in_list ].
Qed.

(** X8. Whether it returns or raises, [prepare_data] changes nothing of the
    table but its text column; and once it has returned, a second call on
    the same table returns too and leaves it as it is. *)
Theorem prepare_data_only_text (df df' : DataFrame) (r : result unit) :
  prepare_data df = (df', r) ->
  nrows df' = nrows df
  /\ (forall l, l <> "text" -> columns df' !! l = columns df !! l)
  /\ (r = Ok tt -> prepare_data df' = (df', Ok tt)).
Proof.
  intros H. destruct (confined_prepare_data _ _ _ H) as [Hrows Hcols].
  split; [exact Hrows|]. split.
  { intros l Hl. apply Hcols. intros Hin.
    apply elem_of_cons in Hin as [->|Hin]; [congruence|].
    apply elem_of_nil in Hin. exact Hin. }
  intros ->.
  apply prepare_data_Ok_inv in H
    as (name & description & message & text & Hn & Hd & Hm & Hjoin & Hacc
        & ->).
  rewrite (prepare_data_Ok_intro _ name description message text);
    try assumption;
    try (simpl; rewrite lookup_insert_ne by discriminate; assumption).
  simpl. rewrite insert_insert_eq. reflexivity.
Qed.

Lemma prepare_data_only_text_witness :
  prepare_data (fst (prepare_data sample_frame))
  = (fst (prepare_data sample_frame), Ok tt)
  /\ columns (fst (prepare_data sample_frame)) !! "name"
     = Some [Str "SQL Injection"].
Proof.
  destruct (prepare_data_only_text sample_frame
              (fst (prepare_data sample_frame)) (Ok tt)
              ltac:(vm_compute; reflexivity))
    as (_ & Hcols & Hagain).
  split; [apply Hagain; reflexivity|].
  rewrite Hcols by discriminate. vm_compute. reflexivity.
Defined.

(** ** The collector: flattening *)

Lemma mapM_Ok_Forall2 {A B} (f : A -> result B) l l' :
  mapM f l = Ok l' -> Forall2 (fun x y => f x = Ok y) l l'.
Proof.
  revert l'. induction l as [|a l IH]; intros l' H; simpl in H.
  - injection H as <-. constructor.
  - destruct (f a) as [b|e] eqn:Hfa; simpl in H; [|discriminate].
    destruct (mapM f l) as [bs|e]; simpl in H; [|discriminate].
    injection H as <-. constructor; auto.
Qed.

Lemma mapM_app {A B} (f : A -> result B) l1 l2 :
  mapM f (l1 ++ l2)
  = rbind (mapM f l1) (fun a => rbind (mapM f l2) (fun b => Ok (a ++ b))).
Proof.
  induction l1 as [|x l1 IH]; simpl.
  - destruct (mapM f l2); reflexivity.
  - destruct (f x) as [y|e]; simpl; [|reflexivity]. rewrite IH.
    destruct (mapM f l1) as [a|e]; simpl; [|reflexivity].
    destruct (mapM f l2); reflexivity.
Qed.

Lemma flatten_analysis_Ok_inv analysis rows :
  flatten_analysis analysis = Ok rows ->
  exists items,
    entries_of analysis items
    /\ Forall2 (fun v r => flatten_vuln v = Ok r) items rows.
Proof.
  unfold flatten_analysis. intros H.
  apply rbind_Ok_inv in H as (res & Hres & H).
  apply rbind_Ok_inv in H as (vulns & Hv & H).
  apply rbind_Ok_inv in H as (items & Hi & H).
  exists items. split; [exists res, vulns; auto|].
  apply mapM_Ok_Forall2, H.
Qed.

Lemma Forall2_concat {A B} (P : A -> B -> Prop) (ls : list (list A))
  (ks : list (list B)) :
  Forall2 (Forall2 P) ls ks -> Forall2 P (concat ls) (concat ks).
Proof.
  induction 1 as [|l k ls ks Hlk _ IH]; simpl; [constructor|].
  apply Forall2_app; assumption.
Qed.

(** X9. A history that is a list flattens to one record per vulnerability
    entry, in the order of the file: the records correspond, one to one, to
    the entries of all analyses taken in turn, and each record's label is 0
    or 1. *)
Theorem flatten_history_one_record_per_entry (analyses : list json)
  (rows : list row) :
  flatten_history (JArr analyses) = Ok rows ->
  exists entries : list (list json),
    Forall2 entries_of analyses entries
    /\ Forall2 (fun v r => flatten_vuln v = Ok r) (concat entries) rows
    /\ length rows = length (concat entries)
    /\ Forall (fun r => r_is_real_threat r = 0 \/ r_is_real_threat r = 1) rows.
Proof.
  unfold flatten_history. simpl. intros H.
  apply rbind_Ok_inv in H as (rss & Hm & [= <-]).
  apply mapM_Ok_Forall2 in Hm.
  assert (Hex : exists entries,
            Forall2 entries_of analyses entries
            /\ Forall2 (Forall2 (fun v r => flatten_vuln v = Ok r)) entries rss).
  { induction Hm as [|a rs analyses rss Ha _ (entries & He & Hr)].
    - exists []. split; constructor.
    - apply flatten_analysis_Ok_inv in Ha as (items & Hitems & Hrows).
      exists (items :: entries). split; constructor; assumption. }
  destruct Hex as (entries & He & Hr). exists entries.
  pose proof (Forall2_concat _ _ _ Hr) as Hc.
  split; [exact He|]. split; [exact Hc|].
  split; [symmetry; eapply Forall2_length, Hc|].
  clear -Hc. induction Hc as [|v r vs rs Hv _ IH]; constructor; [|exact IH].
  apply flatten_vuln_label in Hv as (_ & prediction & _ & _ & ->).
  destruct (Js.truthy prediction); auto.
Qed.

Lemma flatten_history_one_record_per_entry_witness :
  exists entries : list (list json),
    Forall2 entries_of
      (match history_with_gap with JArr l => l | _ => [] end) entries
    /\ length [mkRow (JStr "XSS") (JStr EmptyString) (JStr "MEDIUM")
                 (JStr EmptyString) (JStr EmptyString) (JStr EmptyString)
                 (JStr EmptyString) (JStr EmptyString) 0]
       = length (concat entries).
Proof.
  destruct (flatten_history_one_record_per_entry
              (match history_with_gap with JArr l => l | _ => [] end)
              [mkRow (JStr "XSS") (JStr EmptyString) (JStr "MEDIUM")
                 (JStr EmptyString) (JStr EmptyString) (JStr EmptyString)
                 (JStr EmptyString) (JStr EmptyString) 0]
              ltac:(vm_compute; reflexivity))
    as (entries & He & _ & Hlen & _).
  exists entries. auto.
Defined.

Lemma flatten_history_app pre a post :
  flatten_history (JArr (pre ++ a :: post))
  = rbind (mapM flatten_analysis pre) (fun r1 =>
    rbind (flatten_analysis a) (fun r2 =>
    rbind (mapM flatten_analysis post) (fun r3 =>
    Ok (concat r1 ++ r2 ++ concat r3)))).
Proof.
  unfold flatten_history. simpl. rewrite mapM_app. simpl.
  destruct (mapM flatten_analysis pre) as [r1|e]; simpl; [|reflexivity].
  destruct (flatten_analysis a) as [r2|e]; simpl; [|reflexivity].
  destruct (mapM flatten_analysis post) as [r3|e]; simpl; [|reflexivity].
  rewrite concat_app. reflexivity.
Qed.

Lemma flatten_history_app2 pre post :
  flatten_history (JArr (pre ++ post))
  = rbind (mapM flatten_analysis pre) (fun r1 =>
    rbind (mapM flatten_analysis post) (fun r3 =>
    Ok (concat r1 ++ concat r3))).
Proof.
  unfold flatten_history. simpl. rewrite mapM_app.
  destruct (mapM flatten_analysis pre) as [r1|e]; simpl; [|reflexivity].
  destruct (mapM flatten_analysis post) as [r3|e]; simpl; [|reflexivity].
  rewrite concat_app. reflexivity.
Qed.

(** X10. An analysis entry that has no result, or whose result has no
    vulnerabilities, is passed over without an error: the history flattens
    as if the entry were not in it. *)
Theorem analysis_without_findings_is_skipped (pre post : list json)
  (members : list (string * json)) :
  (Js.lookup members "result" = None
   \/ exists res, Js.lookup members "result" = Some (JObj res)
                  /\ Js.lookup res "vulnerabilities" = None) ->
  flatten_history (JArr (pre ++ JObj members :: post))
  = flatten_history (JArr (pre ++ post)).
Proof.
  intros H.
  assert (E : flatten_analysis (JObj members) = Ok []).
  { unfold flatten_analysis. simpl.
    destruct H as [->|(res & -> & Hv)]; simpl; [reflexivity|].
    rewrite Hv. reflexivity. }
  rewrite flatten_history_app, flatten_history_app2, E.
  destruct (mapM flatten_analysis pre) as [r1|e]; simpl; [|reflexivity].
  destruct (mapM flatten_analysis post) as [r3|e]; reflexivity.
Qed.

Lemma analysis_without_findings_is_skipped_witness :
  flatten_history history_with_gap
  = flatten_history (JArr (match history_with_gap with
                           | JArr (_ :: l) => l
                           | _ => []
                           end)).
Proof.
  apply (analysis_without_findings_is_skipped [] _ [("id", JInt 1)]).
  left. reflexivity.
Defined.

(** X11. One entry that is not a JSON object stops the flattening: if the
    analyses before it are well formed, the whole history raises
    AttributeError, and the records of the earlier analyses are lost with
    it. *)
Theorem malformed_analysis_aborts (pre post : list json) (bad : json) :
  (forall members, bad <> JObj members) ->
  Forall (fun a => exists rows, flatten_analysis a = Ok rows) pre ->
  flatten_history (JArr (pre ++ bad :: post)) = Raise AttributeError.
Proof.
  intros Hbad Hpre. rewrite flatten_history_app.
  destruct (mapM_total _ _ Hpre) as [r1 ->]. simpl.
  assert (E : flatten_analysis bad = Raise AttributeError).
  { destruct bad; try reflexivity. destruct (Hbad members eq_refl). }
  rewrite E. reflexivity.
Qed.

Lemma malformed_analysis_aborts_witness :
  flatten_history history_with_string = Raise AttributeError.
Proof.
  apply (malformed_analysis_aborts [JObj [("id", JInt 1)]] [] (JStr "oops")).
  - intros members. discriminate.
  - repeat constructor. exists []. reflexivity.
Defined.

(** X21. A vulnerability entry flattens to a record exactly when it is a
    JSON object whose original and mlPrediction, where present, are objects
    themselves; any other entry (a string, a null original, a prediction
    that is a bare boolean) raises AttributeError. Keys missing inside
    original never raise. *)
Theorem flatten_vuln_returns_iff (vuln : json) :
  (entry_ok vuln = true -> exists r, flatten_vuln vuln = Ok r)
  /\ (entry_ok vuln = false -> flatten_vuln vuln = Raise AttributeError).
Proof.
  destruct vuln as [| | | | | |members];
    try (split; [discriminate|reflexivity]).
  unfold entry_ok.
  destruct (Js.lookup members "original") as [original|] eqn:Eo;
    destruct (Js.lookup members "mlPrediction") as [ml_pred|] eqn:Em;
    unfold flatten_vuln; simpl; rewrite ?Eo, ?Em; simpl.
  - destruct original; destruct ml_pred; simpl;
      (split; [try discriminate; eauto|try discriminate; reflexivity]).
  - destruct original; simpl;
      (split; [try discriminate; eauto|try discriminate; reflexivity]).
  - destruct ml_pred; simpl;
      (split; [try discriminate; eauto|try discriminate; reflexivity]).
  - split; [eauto|discriminate].
Qed.

Lemma flatten_vuln_returns_iff_witness :
  flatten_vuln entry_with_null_original = Raise AttributeError
  /\ exists r, flatten_vuln (JObj []) = Ok r.
Proof.
  destruct (flatten_vuln_returns_iff entry_with_null_original) as [_ Hbad].
  destruct (flatten_vuln_returns_iff (JObj [])) as [Hgood _].
  split; [apply Hbad; reflexivity|apply Hgood; reflexivity].
Defined.

(** ** Which paths a script may change *)

Section Confinement.

Context {T : LibTypes}.

Lemma fs_confined_bind {A B} paths (m : M (World T) A) (k : A -> M (World T) B) :
  fs_confined paths m -> (forall a, fs_confined paths (k a)) ->
  fs_confined paths (bind m k).
Proof.
  intros Hm Hk w w' r. unfold bind.
  destruct (m w) as [w1 [a|e]] eqn:E.
  - intros H. destruct (Hm _ _ _ E) as [F1 P1].
    destruct (Hk _ _ _ _ H) as [F2 P2].
    split; [congruence|]. intros p Hp. rewrite P2, P1 by exact Hp. reflexivity.
  - intros [= <- <-]. eapply Hm, E.
Qed.

Lemma fs_confined_same {A} paths (m : M (World T) A) :
  (forall w, fs (fst (m w)) = fs w /\ fails (fst (m w)) = fails w) ->
  fs_confined paths m.
Proof.
  intros H w w' r E. destruct (H w) as [Hfs Hfl]. rewrite E in Hfs, Hfl.
  simpl in *. rewrite Hfs. auto.
Qed.

Lemma fs_confined_print paths (x : msg T) : fs_confined paths (print x).
Proof. apply fs_confined_same. intros w. split; reflexivity. Qed.

Lemma fs_confined_ret {A} paths (a : A) :
  fs_confined paths (ret (S := World T) a).
Proof. apply fs_confined_same. intros w. split; reflexivity. Qed.

Lemma fs_confined_raise {A} paths e :
  fs_confined paths (raise (S := World T) (A := A) e).
Proof. apply fs_confined_same. intros w. split; reflexivity. Qed.

Lemma fs_confined_lift {A} paths (x : result A) :
  fs_confined paths (lift (S := World T) x).
Proof. apply fs_confined_same. intros w. split; reflexivity. Qed.

Lemma fs_confined_input paths : fs_confined paths (input (T := T)).
Proof.
  apply fs_confined_same. intros w. unfold input.
  destruct (stdin w); split; reflexivity.
Qed.

Lemma fs_confined_path_exists paths p :
  fs_confined paths (path_exists (T := T) p).
Proof. apply fs_confined_same. intros w. split; reflexivity. Qed.

Lemma fs_confined_json_load paths p :
  fs_confined paths (json_load (T := T) p).
Proof.
  apply fs_confined_same. intros w. unfold json_load.
  destruct (fs w !! p) as [[]|]; split; reflexivity.
Qed.

Lemma fs_confined_on_frame paths df m :
  fs_confined paths (on_frame (T := T) df m).
Proof.
  apply fs_confined_same. intros w. unfold on_frame.
  destruct (m df) as [df' [[]|e]]; split; reflexivity.
Qed.

Lemma fs_confined_column paths df l :
  fs_confined paths (column (T := T) df l).
Proof. apply fs_confined_lift. Qed.

Lemma fs_confined_mkdir paths p :
  p ∈ paths -> fs_confined paths (mkdir_exist_ok (T := T) p).
Proof.
  intros Hp w w' r. unfold mkdir_exist_ok.
  destruct (fs w !! p) as [[]|]; try (intros [= <- <-]; auto).
  destruct (fails w (Mkdir p)); intros [= <- <-]; [auto|].
  split; [reflexivity|]. intros q Hq. simpl.
  apply lookup_insert_ne. intros ->. contradiction.
Qed.

Lemma fs_confined_makedirs paths chain :
  Forall (fun p => p ∈ paths) chain ->
  fs_confined paths (makedirs (T := T) chain).
Proof.
  induction 1 as [|p chain Hp _ IH]; simpl.
  - apply fs_confined_ret.
  - apply fs_confined_bind; [apply fs_confined_mkdir, Hp|intros _; exact IH].
Qed.

Lemma fs_confined_write_file paths p content :
  p ∈ paths -> fs_confined paths (write_file (T := T) p content).
Proof.
  intros Hp w w' r. unfold write_file.
  assert (Hgo :
    (if fails w (OpenW p) then (w, Raise OSError)
     else if fails w (WriteTo p)
          then (set_fs (insert p Truncated) w, Raise OSError)
          else (set_fs (insert p content) w, Ok tt)) = (w', r) ->
    fails w' = fails w /\ forall q, q ∉ paths -> fs w' !! q = fs w !! q).
  { destruct (fails w (OpenW p)); [intros [= <- <-]; auto|].
    destruct (fails w (WriteTo p)); intros [= <- <-];
      (split; [reflexivity|]); intros q Hq; simpl;
      apply lookup_insert_ne; intros ->; contradiction. }
  destruct (fs w !! p) as [[]|]; try exact Hgo.
  intros [= <- <-]. auto.
Qed.

End Confinement.

Ltac fs_confined_steps :=
  repeat first
    [ apply fs_confined_makedirs; repeat constructor; in_list
    | apply fs_confined_mkdir; in_list
    | apply fs_confined_write_file; in_list
    | apply fs_confined_bind; [|intros ?]
    | apply fs_confined_print
    | apply fs_confined_ret
    | apply fs_confined_raise
    | apply fs_confined_lift
    | apply fs_confined_input
    | apply fs_confined_path_exists
    | apply fs_confined_json_load
    | apply fs_confined_on_frame
    | apply fs_confined_column
    | match goal with
      | |- fs_confined _ (if ?b then _ else _) => destruct b
      | |- fs_confined _ (match ?x with _ => _ end) => destruct x
      | |- fs_confined _ (let '(_, _) := ?x in _) => destruct x
      end ].

(** ** The collector script *)

Section CollectorScript.

Context {T : LibTypes}.

Lemma fs_confined_create_training_csv :
  fs_confined ["data"; csv_file] (create_training_csv (T := T)).
Proof.
  unfold create_training_csv, collect_from_history, collect_from_feedback.
  fs_confined_steps.
Qed.

Lemma collect_from_history_eq (w : World T) :
  collect_from_history w
  = match fs w !! history_file with
    | None => (printed [FileNotFound history_file] w, Ok [])
    | Some (JsonFile h) => (w, flatten_history h)
    | Some Dir => (w, Raise OSError)
    | Some _ => (w, Raise JSONDecodeError)
    end.
Proof.
  unfold collect_from_history, bind, path_exists, json_load, lift, print,
    modify, ret, printed. simpl.
  destruct (fs w !! history_file) as [f|] eqn:E; simpl; rewrite ?E;
    [|reflexivity].
  destruct f as [|h| | | |]; try reflexivity.
  destruct (flatten_history h); reflexivity.
Qed.

Lemma makedirs_data (w : World T) :
  data_dir_ok w ->
  exists w1, makedirs ["data"] w = (w1, Ok tt)
             /\ stdin w1 = stdin w /\ stdout w1 = stdout w
             /\ fails w1 = fails w
             /\ fs w1 !! "data" = Some Dir
             /\ forall p, p <> "data" -> fs w1 !! p = fs w !! p.
Proof.
  intros [H|[H Hf]]; unfold makedirs, bind, mkdir_exist_ok; rewrite H.
  - exists w. simpl. auto 10.
  - rewrite Hf. eexists. split; [reflexivity|]. simpl.
    repeat split; try reflexivity; [apply lookup_insert_eq|].
    intros p Hp. apply lookup_insert_ne. congruence.
Qed.

Lemma fs_confined_collect_from_feedback :
  fs_confined [] (collect_from_feedback (T := T)).
Proof. unfold collect_from_feedback. fs_confined_steps. Qed.

Lemma same_lookup_nil (w w' : World T) :
  (forall p, p ∉ ([] : list string) -> fs w' !! p = fs w !! p) ->
  forall p, fs w' !! p = fs w !! p.
Proof. intros H p. apply H. apply not_elem_of_nil. Qed.

Lemma write_file_cases (w w' : World T) p content r :
  write_file p content w = (w', r) ->
  (fs w' !! p = fs w !! p /\ r = Raise OSError)
  \/ (fs w' !! p = Some content /\ r = Ok tt)
  \/ (fs w' !! p = Some Truncated /\ r = Raise OSError).
Proof.
  unfold write_file.
  assert (Hgo :
    (if fails w (OpenW p) then (w, Raise OSError)
     else if fails w (WriteTo p)
          then (set_fs (insert p Truncated) w, Raise OSError)
          else (set_fs (insert p content) w, Ok tt)) = (w', r) ->
    (fs w' !! p = fs w !! p /\ r = Raise OSError)
    \/ (fs w' !! p = Some content /\ r = Ok tt)
    \/ (fs w' !! p = Some Truncated /\ r = Raise OSError)).
  { destruct (fails w (OpenW p)); [intros [= <- <-]; auto|].
    destruct (fails w (WriteTo p)); intros [= <- <-]; simpl;
      rewrite lookup_insert_eq; auto. }
  destruct (fs w !! p) as [f|] eqn:E; [|exact Hgo].
  destruct f; try exact Hgo.
  intros [= <- <-]. auto.
Qed.

(** X12. Whether it returns or raises, the collector changes no path but
    data and data/training_data.csv: history.json and feedback.json are
    only read. It touches data/training_data.csv only after the history has
    flattened to at least one record, and then leaves there either those
    records under the nine field names or, if the write failed, a truncated
    file. *)
Theorem collector_writes_only_its_csv (w w' : World T) (r : result unit) :
  create_training_csv w = (w', r) ->
  (forall p, p <> "data" -> p <> csv_file -> fs w' !! p = fs w !! p)
  /\ (fs w' !! csv_file <> fs w !! csv_file ->
      exists h row rows,
        fs w !! history_file = Some (JsonFile h)
        /\ flatten_history h = Ok (row :: rows)
        /\ (fs w' !! csv_file = Some (CsvFile fieldnames (row :: rows))
            \/ fs w' !! csv_file = Some Truncated)).
Proof.
  intros H. split.
  { destruct (fs_confined_create_training_csv _ _ _ H) as [_ Hp].
    intros p H1 H2. apply Hp. intros Hin.
    repeat (apply elem_of_cons in Hin as [->|Hin]; [congruence|]).
    apply elem_of_nil in Hin. exact Hin. }
  intros Hchanged. revert H. unfold create_training_csv. unfold bind at 1.
  destruct (makedirs ["data"] w) as [w0 r0] eqn:E0.
  assert (H0 : forall p, p <> "data" -> fs w0 !! p = fs w !! p).
  { intros p Hp.
    destruct (fs_confined_makedirs (T := T) ["data"] ["data"]
                ltac:(repeat constructor; in_list) _ _ _ E0) as [_ P].
    apply P. intros Hin. apply elem_of_cons in Hin as [->|Hin]; [congruence|].
    apply elem_of_nil in Hin. exact Hin. }
  destruct r0 as [[]|e0];
    [|intros [= <- <-]; destruct Hchanged; apply H0; discriminate].
  unfold bind at 1. rewrite collect_from_history_eq.
  rewrite (H0 history_file) by discriminate.
  assert (Hnone : forall (v : World T) rows',
    fs v = fs w0 -> rows' = [] ->
    bind collect_from_feedback (fun feedback_data =>
      bind (if Js.truthy feedback_data then ret tt else ret tt) (fun _ =>
        match rows' with
        | _ :: _ =>
            bind (write_file csv_file (CsvFile fieldnames rows')) (fun _ =>
              print (CsvCreated csv_file (length rows')))
        | [] => print NoDataFound
        end)) v = (w', r) -> False).
  { intros v rows' Hv -> Hrun. apply Hchanged. revert Hrun. unfold bind at 1.
    destruct (collect_from_feedback v) as [v1 r1] eqn:E1.
    destruct (fs_confined_collect_from_feedback _ _ _ E1) as [_ P1].
    pose proof (same_lookup_nil _ _ P1 csv_file) as C1.
    destruct r1 as [j|e1].
    - rewrite bind_pass_statement. intros [= <- <-]. simpl.
      rewrite C1, Hv. apply H0. discriminate.
    - intros [= <- <-]. rewrite C1, Hv. apply H0. discriminate. }
  destruct (fs w !! history_file) as [f|] eqn:Eh.
  2:{ intros Hrun.
      destruct (Hnone (printed [FileNotFound history_file] w0) []
                  eq_refl eq_refl Hrun). }
  destruct f as [|h| | | |];
    try (intros [= <- <-]; destruct Hchanged; apply H0; discriminate).
  destruct (flatten_history h) as [[|row rows]|e] eqn:Ef.
  - intros Hrun. destruct (Hnone w0 [] eq_refl eq_refl Hrun).
  - intros Hrun. exists h, row, rows. split; [reflexivity|].
    split; [exact Ef|]. revert Hrun. unfold bind at 1.
    destruct (collect_from_feedback w0) as [v1 r1] eqn:E1.
    destruct (fs_confined_collect_from_feedback _ _ _ E1) as [_ P1].
    pose proof (same_lookup_nil _ _ P1 csv_file) as C1.
    destruct r1 as [j|e1].
    + rewrite bind_pass_statement. unfold bind at 1.
      destruct (write_file csv_file (CsvFile fieldnames (row :: rows)) v1)
        as [v2 r2] eqn:E2.
      apply write_file_cases in E2 as [[Hs ->]|[[Hs ->]|[Hs ->]]].
      * intros [= <- <-]. destruct Hchanged. rewrite Hs, C1.
        apply H0. discriminate.
      * intros [= <- <-]. left. exact Hs.
      * intros [= <- <-]. right. exact Hs.
    + intros [= <- <-]. destruct Hchanged. rewrite C1. apply H0. discriminate.
  - intros [= <- <-]. destruct Hchanged. apply H0. discriminate.
Qed.

End CollectorScript.

Lemma collector_writes_only_its_csv_witness :
  fs (fst (create_training_csv world_with_blank_feedback)) !! history_file
  = Some (JsonFile (T := numbered) history_doc).
Proof.
  destruct (collector_writes_only_its_csv world_with_blank_feedback
              (fst (create_training_csv world_with_blank_feedback))
              (Raise JSONDecodeError) ltac:(vm_compute; reflexivity))
    as [H _].
  rewrite H by discriminate. vm_compute. reflexivity.
Defined.

Section CollectorRuns.

Context {T : LibTypes}.

Lemma feedback_ok_same (w v : World T) :
  fs v !! feedback_file = fs w !! feedback_file ->
  feedback_ok w -> feedback_ok v.
Proof. unfold feedback_ok. intros ->. auto. Qed.

(** X13. When data/history.json is absent, or flattens to no record, the
    collector returns normally, prints its no-data notice last and writes
    nothing: every path but the directory data keeps what it held, so a
    data/training_data.csv of an earlier run stays on disk. *)
Theorem no_records_no_csv (w : World T) :
  data_dir_ok w ->
  feedback_ok w ->
  (fs w !! history_file = None
   \/ exists h, fs w !! history_file = Some (JsonFile h)
                /\ flatten_history h = Ok []) ->
  exists w',
    create_training_csv w = (w', Ok tt)
    /\ (forall p, p <> "data" -> fs w' !! p = fs w !! p)
    /\ last (stdout w') = Some NoDataFound.
Proof.
  intros Hdata Hfb Hhist.
  destruct (makedirs_data w Hdata) as (w1 & Hmk & _ & _ & _ & _ & Hfs).
  assert (Hrun : exists w2, collect_from_history w1 = (w2, Ok [])
                            /\ fs w2 = fs w1).
  { rewrite collect_from_history_eq, (Hfs history_file) by discriminate.
    destruct Hhist as [->|(h & -> & ->)]; eexists; split; reflexivity. }
  destruct Hrun as (w2 & Hh & Hfs2).
  assert (Hfb2 : feedback_ok w2).
  { eapply feedback_ok_same; [|exact Hfb]. rewrite Hfs2. apply Hfs.
    discriminate. }
  destruct (collect_from_feedback_returns w2 Hfb2) as (ms & j & Hf).
  eexists. split; [|split].
  - unfold create_training_csv. unfold bind at 1. rewrite Hmk.
    unfold bind at 1. rewrite Hh. unfold bind at 1. rewrite Hf.
    rewrite bind_pass_statement. reflexivity.
  - intros p Hp. simpl. rewrite Hfs2. apply Hfs, Hp.
  - simpl. rewrite last_snoc. reflexivity.
Qed.

(** X14. When the directory data exists or can be made, data/feedback.json
    is absent or holds a JSON document, the history flattens to at least
    one record and data/training_data.csv can be written, the collector
    returns normally; the file then holds the nine field names and exactly
    the flattened records, in order, and the last line printed reports
    their number. *)
Theorem csv_holds_the_flattened_records (w : World T) (h : json)
  (first : row) (rows : list row) :
  data_dir_ok w ->
  feedback_ok w ->
  fs w !! history_file = Some (JsonFile h) ->
  flatten_history h = Ok (first :: rows) ->
  fs w !! csv_file <> Some Dir ->
  fails w (OpenW csv_file) = false ->
  fails w (WriteTo csv_file) = false ->
  exists w',
    create_training_csv w = (w', Ok tt)
    /\ fs w' !! csv_file = Some (CsvFile fieldnames (first :: rows))
    /\ last (stdout w') = Some (CsvCreated csv_file (S (length rows))).
Proof.
  intros Hdata Hfb Hhist Hflat Hcsv Hopen Hwrite.
  destruct (makedirs_data w Hdata) as (w1 & Hmk & _ & _ & Hfl & _ & Hfs).
  assert (Hh : collect_from_history w1 = (w1, Ok (first :: rows))).
  { rewrite collect_from_history_eq, (Hfs history_file), Hhist, Hflat
      by discriminate. reflexivity. }
  assert (Hfb1 : feedback_ok w1).
  { eapply feedback_ok_same; [|exact Hfb]. apply Hfs. discriminate. }
  destruct (collect_from_feedback_returns w1 Hfb1) as (ms & j & Hf).
  assert (Hw : write_file csv_file (CsvFile fieldnames (first :: rows))
                 (printed ms w1)
               = (set_fs (insert csv_file (CsvFile fieldnames (first :: rows)))
                    (printed ms w1), Ok tt)).
  { apply write_file_ok; simpl; rewrite ?Hfl; try assumption.
    rewrite Hfs by discriminate. exact Hcsv. }
  eexists. split; [|split].
  - unfold create_training_csv. unfold bind at 1. rewrite Hmk.
    unfold bind at 1. rewrite Hh. unfold bind at 1. rewrite Hf.
    rewrite bind_pass_statement. unfold bind at 1. rewrite Hw. reflexivity.
  - simpl. apply lookup_insert_eq.
  - simpl. rewrite last_snoc. reflexivity.
Qed.

End CollectorRuns.

Lemma no_records_no_csv_witness :
  exists w',
    create_training_csv world_with_old_csv = (w', Ok tt)
    /\ fs w' !! csv_file = Some (CsvFile fieldnames [history_row]).
Proof.
  destruct (no_records_no_csv world_with_old_csv
              ltac:(left; vm_compute; reflexivity)
              ltac:(left; vm_compute; reflexivity)
              ltac:(left; vm_compute; reflexivity))
    as (w' & Hrun & Hfs & _).
  exists w'. split; [exact Hrun|].
  rewrite Hfs by discriminate. vm_compute. reflexivity.
Defined.

Lemma csv_holds_the_flattened_records_witness :
  exists w',
    create_training_csv world_with_history = (w', Ok tt)
    /\ fs w' !! csv_file = Some (CsvFile fieldnames [history_row]).
Proof.
  destruct (csv_holds_the_flattened_records world_with_history history_doc
              history_row []
              ltac:(left; vm_compute; reflexivity)
              ltac:(left; vm_compute; reflexivity)
              ltac:(vm_compute; reflexivity)
              ltac:(vm_compute; reflexivity)
              ltac:(vm_compute; discriminate)
              eq_refl eq_refl)
    as (w' & Hrun & Hcsv & _).
  exists w'. auto.
Defined.

(** ** The trainers: the gate *)

(** X15. With 50 records or more the classical trainer, and with 100 or
    more the transformer trainer, asks nothing: after the banner and the
    record count it goes straight on to the training part, and the
    operator's input is left unread. *)
Theorem enough_records_no_question {T : LibTypes} {L : Library T}
  (w : World T) (f : file T) (df : DataFrame) :
  fs w !! csv_file = Some f ->
  read_csv f = Ok df ->
  ((50 <= nrows df)%nat ->
   main w
   = main_train df (printed [BannerNaiveBayes; RecordsLoaded (nrows df)] w))
  /\ ((100 <= nrows df)%nat ->
      train_bert w
      = train_bert_fit df (printed [BannerBert; RecordsLoaded (nrows df)] w)).
Proof.
  intros Hf Hr. split; intros Hn.
  - unfold main. unfold bind at 1. simpl. unfold bind at 1.
    rewrite (load_data_present _ _ f df) by assumption.
    unfold bind at 1. unfold low_data_gate.
    destruct (Nat.ltb_spec (nrows df) 50) as [Hlt|_]; [lia|].
    unfold printed. simpl. rewrite <- app_assoc. reflexivity.
  - unfold train_bert. unfold bind at 1. simpl. unfold bind at 1.
    rewrite (load_data_present _ _ f df) by assumption.
    unfold bind at 1. unfold low_data_gate.
    destruct (Nat.ltb_spec (nrows df) 100) as [Hlt|_]; [lia|].
    unfold printed. simpl. rewrite <- app_assoc. reflexivity.
Qed.

Lemma enough_records_no_question_witness :
  main (L := parser_only (labelled_frame 50 20)) (world_ready ["n"])
  = main_train (L := parser_only (labelled_frame 50 20)) (labelled_frame 50 20)
      (printed [BannerNaiveBayes; RecordsLoaded 50] (world_ready ["n"])).
Proof.
  destruct (enough_records_no_question (L := parser_only (labelled_frame 50 20))
              (world_ready ["n"]) (OtherFile "records") (labelled_frame 50 20)
              ltac:(vm_compute; reflexivity) eq_refl) as [Hnb _].
  exact (Hnb ltac:(simpl; lia)).
Defined.

(** X16. Below the threshold the gate lets the run go on for exactly two
    answers, "s" and "S"; every other line, "sim", "y" and the empty line
    included, stops it. *)
Theorem gate_accepts_s_only {T : LibTypes} (w : World T) (df : DataFrame)
  (threshold : nat) (recommended answer : string) (rest : list string) :
  (nrows df < threshold)%nat ->
  stdin w = answer :: rest ->
  exists (w' : World T) (go_on : bool),
    low_data_gate df threshold recommended w = (w', Ok go_on)
    /\ stdin w' = rest
    /\ (go_on = true <-> answer = "s" \/ answer = "S").
Proof.
  intros Hn Hin. rewrite low_data_gate_below by exact Hn. rewrite Hin.
  eexists _, _. split; [reflexivity|]. split; [reflexivity|].
  apply lower_is_s.
Qed.

Lemma gate_accepts_s_only_witness :
  exists w' : World numbered,
    low_data_gate sample_frame 50 "50-100" (world_ready ["sim"])
    = (w', Ok false).
Proof.
  destruct (gate_accepts_s_only (world_ready ["sim"]) sample_frame 50
              "50-100" "sim" [] ltac:(simpl; lia) eq_refl)
    as (w' & go_on & Hrun & _ & Hiff).
  exists w'. rewrite Hrun. destruct go_on; [|reflexivity].
  destruct (proj1 Hiff eq_refl) as [H|H]; discriminate H.
Defined.

(** ** The trainers: class balance *)

Lemma bind_print {T : LibTypes} {B} (x : msg T) (k : unit -> M (World T) B) w :
  bind (print x) k w = k tt (printed [x] w).
Proof. reflexivity. Qed.

Lemma printed_printed {T : LibTypes} (a b : list (msg T)) (w : World T) :
  printed b (printed a w) = printed (a ++ b) w.
Proof. unfold printed. simpl. rewrite <- app_assoc. reflexivity. Qed.

Lemma bind_column_Some {T : LibTypes} {B} df l s
  (k : Series -> M (World T) B) w :
  columns df !! l = Some s -> bind (column df l) k w = k s w.
Proof.
  intros H. unfold bind, column, lift, Pd.getitem. rewrite H. reflexivity.
Qed.

Lemma sum_binary labels :
  binary labels ->
  Pd.sum labels = Ok (Z.of_nat (ones labels))
  /\ length labels = (ones labels + zeros labels)%nat.
Proof.
  unfold binary, ones, zeros.
  induction 1 as [|c labels [->| ->] _ [IHs IHl]]; simpl.
  - auto.
  - rewrite IHs. simpl. split; [f_equal; lia|lia].
  - rewrite IHs. simpl. split; [f_equal; lia|lia].
Qed.

(** X17. For a label column of zeros and ones over a non-empty table, the
    classical trainer reports as real threats the number of records
    labelled 1 and as false positives the number labelled 0, adds the
    imbalance warning exactly when one of the two numbers is below 10, and
    in either case goes on to train: the warning stops nothing. *)
Theorem balance_is_reported_not_enforced {T : LibTypes} {L : Library T}
  (w : World T) (df : DataFrame) (labels : Series) :
  columns df !! "is_real_threat" = Some labels ->
  binary labels ->
  length labels = nrows df ->
  (0 < nrows df)%nat ->
  main_train df w
  = bind (train_model df) (fun _ =>
      bind (print Finished) (fun _ => print NextSteps))
      (printed (balance_report labels (nrows df)) w).
Proof.
  intros Hcol Hbin Hlen Hpos.
  destruct (sum_binary labels Hbin) as [Hsum Hsplit].
  unfold main_train.
  rewrite (bind_column_Some _ _ _ _ _ Hcol).
  unfold bind at 1. unfold lift at 1. rewrite Hsum.
  rewrite bind_print.
  destruct (Nat.eqb_spec (nrows df) 0) as [E|_]; [lia|].
  unfold bind at 1. unfold ret at 1.
  rewrite !bind_print, !printed_printed. simpl.
  assert (Hz : Z.of_nat (nrows df) - Z.of_nat (ones labels)
               = Z.of_nat (zeros labels)) by lia.
  rewrite Hz. unfold balance_report.
  destruct ((Z.of_nat (ones labels) <? 10)%Z || (Z.of_nat (zeros labels) <? 10)%Z).
  - rewrite bind_print, printed_printed. reflexivity.
  - unfold bind at 1. unfold ret at 1. rewrite app_nil_r. reflexivity.
Qed.

Lemma balance_is_reported_not_enforced_witness :
  main_train (L := parser_only (labelled_frame 50 5)) (labelled_frame 50 5)
    (world_ready [])
  = bind (train_model (L := parser_only (labelled_frame 50 5))
            (labelled_frame 50 5))
      (fun _ => bind (print Finished) (fun _ => print NextSteps))
      (printed [DistributionHeader; RealThreats 5 50; FalsePositives 45 50;
                Unbalanced] (world_ready [])).
Proof.
  apply (balance_is_reported_not_enforced (L := parser_only (labelled_frame 50 5))
           (world_ready []) (labelled_frame 50 5)
           (replicate 5 (Num 1) ++ replicate 45 (Num 0))).
  - vm_compute. reflexivity.
  - unfold binary. apply Forall_app. split; apply Forall_replicate; auto.
  - reflexivity.
  - simpl. lia.
Defined.

(** ** The classical trainer: when and where it writes *)

Section ClassicalTrainer.

Context {T : LibTypes} {L : Library T}.

Lemma bind_lift_cases {A B} (x : result A) (k : A -> M (World T) B) w w' r :
  bind (lift x) k w = (w', r) ->
  (exists e, x = Raise e /\ w' = w /\ r = Raise e)
  \/ (exists a, x = Ok a /\ k a w = (w', r)).
Proof.
  unfold bind, lift. destruct x as [a|e].
  - right. eauto.
  - intros [= <- <-]. left. eauto.
Qed.

Lemma bind_on_frame_cases {B} df m (k : DataFrame -> M (World T) B) w w' r :
  bind (on_frame df m) k w = (w', r) ->
  (exists e, w' = w /\ r = Raise e) \/ (exists df', k df' w = (w', r)).
Proof.
  unfold bind, on_frame. destruct (m df) as [df' [[]|e]].
  - right. eauto.
  - intros [= <- <-]. left. eauto.
Qed.

Lemma stdout_grows_bind {A B} (m : M (World T) A) (k : A -> M (World T) B) :
  stdout_grows m -> (forall a, stdout_grows (k a)) -> stdout_grows (bind m k).
Proof.
  intros Hm Hk w w' r. unfold bind.
  destruct (m w) as [w1 [a|e]] eqn:E.
  - intros H. destruct (Hm _ _ _ E) as [o1 H1].
    destruct (Hk _ _ _ _ H) as [o2 H2].
    exists (o1 ++ o2). rewrite H2, H1, app_assoc. reflexivity.
  - intros [= <- <-]. eapply Hm, E.
Qed.

Lemma stdout_grows_print (x : msg T) : stdout_grows (print x).
Proof. intros w w' r [= <- <-]. exists [x]. reflexivity. Qed.

Lemma stdout_grows_mkdir p : stdout_grows (mkdir_exist_ok (T := T) p).
Proof.
  intros w w' r. unfold mkdir_exist_ok.
  destruct (fs w !! p) as [[]|]; try destruct (fails w (Mkdir p));
    intros [= <- <-]; exists []; simpl; rewrite app_nil_r; reflexivity.
Qed.

Lemma stdout_grows_write_file p content :
  stdout_grows (write_file (T := T) p content).
Proof.
  intros w w' r. unfold write_file.
  destruct (fs w !! p) as [[]|]; try destruct (fails w (OpenW p));
    try destruct (fails w (WriteTo p));
    intros [= <- <-]; exists []; simpl; rewrite app_nil_r; reflexivity.
Qed.

Lemma stdout_grows_save (model : Classifier T) (vectorizer : Vectorizer T) :
  stdout_grows (train_model_save model vectorizer).
Proof.
  unfold train_model_save. simpl.
  repeat first
    [ apply stdout_grows_mkdir
    | apply stdout_grows_write_file
    | apply stdout_grows_print
    | apply stdout_grows_bind; [|intros ?]
    | (intros w w' r [= <- <-]; exists []; rewrite app_nil_r; reflexivity) ].
Qed.

Ltac stage H x :=
  first
    [ apply bind_on_frame_cases in H as [(? & -> & ->)|(x & H)];
      [left; split; [reflexivity|eauto]|]
    | apply bind_lift_cases in H as [(? & _ & -> & ->)|(x & _ & H)];
      [left; split; [reflexivity|eauto]|] ].

(** [train_model] either raises with the file system as it found it, or
    reaches the save with a fitted pair, the report printed last and the
    file system still as it found it. *)
Lemma train_model_cases df (w w' : World T) r :
  train_model df w = (w', r) ->
  (fs w' = fs w /\ exists e, r = Raise e)
  \/ exists model vectorizer accuracy w1 rs rep,
       fs w1 = fs w
       /\ last (stdout w1) = Some (ClassificationReport rep)
       /\ train_model_save model vectorizer w1 = (w', rs)
       /\ r = match rs with
              | Ok _ => Ok (model, vectorizer, accuracy)
              | Raise e => Raise e
              end.
Proof.
  intros H. unfold train_model in H.
  rewrite bind_print in H.
  stage H df1. stage H X_text. stage H y.
  rewrite bind_print in H.
  stage H fitted. destruct fitted as [vectorizer X_text_vectorized].
  stage H has_cve. stage H has_cwe. stage H severity_numeric.
  stage H is_test_file. stage H X. stage H parts.
  destruct parts as [[[X_train X_test] y_train] y_test].
  stage H n_train. stage H n_test.
  rewrite !bind_print in H.
  stage H model.
  rewrite bind_print in H.
  stage H y_pred. stage H accuracy.
  rewrite bind_print in H.
  stage H report.
  rewrite bind_print in H.
  right. unfold bind in H.
  destruct (train_model_save model vectorizer _) as [w2 rs] eqn:Es.
  assert (E : w2 = w' /\ r = match rs with
                             | Ok _ => Ok (model, vectorizer, accuracy)
                             | Raise e => Raise e
                             end)
    by (destruct rs as [[]|e]; injection H as <- <-; auto).
  destruct E as [<- ->].
  eexists model, vectorizer, accuracy, _, rs, report.
  split; [|split; [|split; [exact Es|reflexivity]]].
  - reflexivity.
  - simpl. rewrite last_snoc. reflexivity.
Qed.

End ClassicalTrainer.

Section ClassicalTrainerRuns.

Context {T : LibTypes} {L : Library T}.

(** X18. [train_model] writes nothing before training and evaluation are
    through: if the file system differs after the call, the classification
    report has been printed; and a call after which no classification
    report is on the terminal has raised and left every file as it was. *)
Theorem train_model_writes_after_report (df : DataFrame) (w w' : World T)
  (r : result (Classifier T * Vectorizer T * Score T)) :
  train_model df w = (w', r) ->
  (fs w' <> fs w -> exists rep, ClassificationReport rep ∈ stdout w')
  /\ ((forall rep, ClassificationReport rep ∉ stdout w') ->
      fs w' = fs w /\ exists e, r = Raise e).
Proof.
  intros H.
  apply train_model_cases in H
    as [[Hsame He]|(model & vectorizer & accuracy & w1 & rs & rep & _ & Hlast
                    & Hsave & _)].
  { split; [contradiction|auto]. }
  assert (Hrep : ClassificationReport rep ∈ stdout w').
  { destruct (stdout_grows_save _ _ _ _ _ Hsave) as [out ->].
    apply elem_of_app. left. apply list_elem_of_In.
    destruct (stdout w1) as [|x l] using rev_ind; [discriminate Hlast|].
    rewrite last_snoc in Hlast. injection Hlast as ->.
    apply in_or_app. right. left. reflexivity. }
  split; [eauto|]. intros Hno. destruct (Hno rep Hrep).
Qed.

Lemma fs_confined_load_data hint :
  fs_confined (T := T) [] (load_data hint).
Proof.
  unfold load_data.
  repeat first
    [ apply fs_confined_bind; [|intros ?]
    | apply fs_confined_print
    | apply fs_confined_ret
    | apply fs_confined_path_exists
    | (apply fs_confined_same; intros ?; split; reflexivity)
    | match goal with
      | |- fs_confined _ (if ?b then _ else _) => destruct b
      end ].
Qed.

Lemma fs_confined_weaken {A} (m : M (World T) A) paths :
  fs_confined [] m -> fs_confined paths m.
Proof.
  intros H w w' r E. destruct (H _ _ _ E) as [F P]. split; [exact F|].
  intros p _. apply P, not_elem_of_nil.
Qed.

Lemma fs_confined_train_model df : fs_confined model_paths (train_model df).
Proof.
  unfold train_model, train_model_save, model_paths. fs_confined_steps.
Qed.

Lemma fs_confined_main : fs_confined model_paths main.
Proof.
  unfold main, main_train, low_data_gate.
  repeat first
    [ apply fs_confined_train_model
    | apply fs_confined_weaken, fs_confined_load_data
    | apply fs_confined_bind; [|intros ?]
    | apply fs_confined_print
    | apply fs_confined_ret
    | apply fs_confined_raise
    | apply fs_confined_lift
    | apply fs_confined_input
    | apply fs_confined_column
    | match goal with
      | |- fs_confined _ (if ?b then _ else _) => destruct b
      | |- fs_confined _ (match ?x with _ => _ end) => destruct x
      end ].
Qed.

(** X20. Whatever the libraries do and however the run ends, the classical
    trainer changes no path other than models, models/naive_bayes.pkl and
    models/vectorizer.pkl; data/training_data.csv in particular is only
    read. *)
Theorem classical_trainer_writes_only_models (w w' : World T)
  (r : result unit) :
  main w = (w', r) ->
  (forall p, p ∉ model_paths -> fs w' !! p = fs w !! p)
  /\ fs w' !! csv_file = fs w !! csv_file.
Proof.
  intros H. destruct (fs_confined_main _ _ _ H) as [_ P].
  split; [exact P|]. apply P. unfold model_paths. not_in_list.
Qed.

End ClassicalTrainerRuns.

Lemma train_model_writes_after_report_witness :
  fs (fst (train_model (L := fitting sample_frame) sample_frame
             (world_ready [])))
  = fs (world_ready [])
  /\ exists e,
       snd (train_model (L := fitting sample_frame) sample_frame
              (world_ready [])) = Raise e.
Proof.
  destruct (train_model_writes_after_report (L := fitting sample_frame)
              sample_frame (world_ready [])
              (fst (train_model (L := fitting sample_frame) sample_frame
                      (world_ready [])))
              (snd (train_model (L := fitting sample_frame) sample_frame
                      (world_ready [])))
              ltac:(vm_compute; reflexivity))
    as [_ H].
  apply H. intros rep Hin. vm_compute in Hin.
  repeat (apply elem_of_cons in Hin as [Hin|Hin]; [discriminate Hin|]).
  apply elem_of_nil in Hin. exact Hin.
Defined.

Lemma classical_trainer_writes_only_models_witness :
  fs (fst (main (L := fitting sample_frame) (world_ready ["s"]))) !! csv_file
  = Some (OtherFile "records").
Proof.
  destruct (classical_trainer_writes_only_models (L := fitting sample_frame)
              (world_ready ["s"])
              (fst (main (L := fitting sample_frame) (world_ready ["s"])))
              (snd (main (L := fitting sample_frame) (world_ready ["s"])))
              ltac:(vm_compute; reflexivity))
    as [_ H].
  rewrite H. vm_compute. reflexivity.
Defined.

(** ** The pair on disk over whole runs of the classical trainer *)

Section PairOnDisk.

Context {T : LibTypes} {L : Library T}.






End PairOnDisk.



(** ** The training CSV and data/feedback.json *)

Section FeedbackFile.

Context {T : LibTypes}.




End FeedbackFile.


